(** * CalendarAppChallenge: the calendar model of [app/model/calendar.py]

    A shallow embedding of [Reminder], [Event], [Day] and [Calendar] and the
    properties of the slot-booking core.

    Conventions of the embedding:
    - a Python [date] is the record of its year, month and day, a [time] the
      record of its hour, minute, second and microsecond; both are compared
      field by field, the way Python compares them;
    - [Day.slots] is an insertion-ordered dict: an association list, read with
      [dict_get] and written with [dict_set], iterated in list order;
    - [Calendar.days] and [Calendar.events] are finite maps ([gmap]); the
      objects they hold are shared and mutated in place, which is a rewrite of
      the entry;
    - a method takes the object and returns an [outcome] together with the
      object as the call leaves it, also when the call raises;
    - a loop that need not end takes fuel, and runs out of it as [OutOfFuel];
    - the clock ([date.today()], [datetime.now().date()]) and the identifier
      [generate_unique_id()] returns are arguments of the call that uses them. *)

From stdpp Require Import gmap strings list fin_maps sorting.
From Stdlib Require Import ZArith Lia.

Open Scope Z_scope.

(** ** Outcomes of a call *)

Inductive error :=
  | EventNotFound
  | ReminderNotFound
  | SlotNotAvailable
  | DateInPast
  | OverflowError
  | KeyError.

Inductive outcome (A : Type) :=
  | Return (a : A)
  | Raise (e : error)
  | OutOfFuel.

Arguments Return {A} a.
Arguments Raise {A} e.
Arguments OutOfFuel {A}.

#[global] Instance error_eq_dec : EqDecision error.
Proof. solve_decision. Defined.

(** Modelled from the spec: the helpers of [app/services/util.py], which is
    not part of the sources at hand. Each one raises the failure of its name
    (spec section 7: EventNotFound, ReminderNotFound, SlotNotAvailable,
    DateInPast), so the statement after a call to one of them is not run. *)
Definition reminder_not_found_error {A} : outcome A := Raise ReminderNotFound.
Definition event_not_found_error {A} : outcome A := Raise EventNotFound.
Definition date_lower_than_today_error {A} : outcome A := Raise DateInPast.
Definition slot_not_available_error {A} : outcome A := Raise SlotNotAvailable.

(** ** [datetime.time], [datetime.date], [datetime.datetime] *)

Record time := Time { hour : Z; minute : Z; second : Z; microsecond : Z }.

Record date := Date { year : Z; month : Z; day : Z }.

Record datetime := DateTime { dt_date : date; dt_time : time }.

#[global] Instance time_eq_dec : EqDecision time.
Proof. solve_decision. Defined.

#[global] Instance date_eq_dec : EqDecision date.
Proof. solve_decision. Defined.

#[global] Instance datetime_eq_dec : EqDecision datetime.
Proof. solve_decision. Defined.

#[global] Instance date_countable : Countable date.
Proof.
  refine (inj_countable' (fun d => (year d, month d, day d))
            (fun t => Date t.1.1 t.1.2 t.2) _).
  by intros [].
Defined.

(** Lexicographic step: the first comparison decides unless it is [Eq]. *)
Definition lex (c c' : comparison) : comparison :=
  match c with Eq => c' | _ => c end.

Definition time_cmp (a b : time) : comparison :=
  lex (hour a ?= hour b)
    (lex (minute a ?= minute b)
       (lex (second a ?= second b) (microsecond a ?= microsecond b))).

(** [a < b] and [a <= b] on times. *)
Definition time_lt (a b : time) : bool :=
  match time_cmp a b with Lt => true | _ => false end.
Definition time_le (a b : time) : bool :=
  match time_cmp a b with Gt => false | _ => true end.

Definition date_cmp (a b : date) : comparison :=
  lex (year a ?= year b) (lex (month a ?= month b) (day a ?= day b)).

Definition date_lt (a b : date) : bool :=
  match date_cmp a b with Lt => true | _ => false end.
Definition date_le (a b : date) : bool :=
  match date_cmp a b with Gt => false | _ => true end.

(** [date.toordinal()]: day 1 is 0001-01-01 of the proleptic Gregorian
    calendar. *)
Definition is_leap (y : Z) : bool :=
  (y mod 4 =? 0) && (negb (y mod 100 =? 0) || (y mod 400 =? 0)).

Definition days_before_year (y : Z) : Z :=
  let y := y - 1 in y * 365 + y / 4 - y / 100 + y / 400.

Definition DAYS_BEFORE_MONTH : list Z :=
  [0; 31; 59; 90; 120; 151; 181; 212; 243; 273; 304; 334].

Definition days_before_month (y m : Z) : Z :=
  nth (Z.to_nat (m - 1)) DAYS_BEFORE_MONTH 0
  + (if (2 <? m) && is_leap y then 1 else 0).

Definition toordinal (d : date) : Z :=
  days_before_year (year d) + days_before_month (year d) (month d) + day d.

(** [date.max.toordinal()], the ordinal of 9999-12-31. *)
Definition MAXORDINAL : Z := 3652059.

(** [(end_at - start_at).days] *)
Definition days_between (end_at start_at : date) : Z :=
  toordinal end_at - toordinal start_at.

(** [(datetime.combine(d, t) + timedelta(minutes=m)).time()]: the minutes are
    added to the time of day, whole days carry into the date, and the sum
    raises OverflowError when the date leaves [date.min .. date.max]. *)
Definition time_after (d : date) (t : time) (m : Z) : outcome time :=
  let total := hour t * 60 + minute t + m in
  let carry := total / 1440 in
  if (1 <=? toordinal d + carry) && (toordinal d + carry <=? MAXORDINAL) then
    Return (Time ((total / 60) mod 24) (total mod 60) (second t) (microsecond t))
  else Raise OverflowError.

(** ** Insertion-ordered dicts *)

Section Dict.
Context {K V : Type} `{EqDecision K}.

(** [d.get(k)] *)
Fixpoint dict_get (d : list (K * V)) (k : K) : option V :=
  match d with
  | [] => None
  | (k', v) :: d' => if decide (k' = k) then Some v else dict_get d' k
  end.

(** [d[k] = v]: a present key keeps its place, a new key goes last. *)
Fixpoint dict_set (d : list (K * V)) (k : K) (v : V) : list (K * V) :=
  match d with
  | [] => [(k, v)]
  | (k', v') :: d' =>
      if decide (k' = k) then (k', v) :: d' else (k', v') :: dict_set d' k v
  end.

End Dict.

(** ** Reminder *)

Record Reminder := { date_time : datetime; type_ : string }.

Definition EMAIL : string := "email".
Definition SYSTEM : string := "system".

(** ** Event *)

Record Event := {
  title : string;
  description : string;
  date_ : date;
  start_at : time;
  end_at : time;
  id_ : string;
  reminders : list Reminder
}.

Definition set_reminders (e : Event) (rs : list Reminder) : Event :=
  {| title := title e; description := description e; date_ := date_ e;
     start_at := start_at e; end_at := end_at e; id_ := id_ e;
     reminders := rs |}.

Definition set_title_description (e : Event) (t d : string) : Event :=
  {| title := t; description := d; date_ := date_ e;
     start_at := start_at e; end_at := end_at e; id_ := id_ e;
     reminders := reminders e |}.

Module Event.

(** [Event(title=..., description=..., date_=..., start_at=..., end_at=...)]:
    the id is what [generate_unique_id()] returns, the reminders a new empty
    list. *)
Definition init (title description : string) (date_ : date)
    (start_at end_at : time) (fresh : string) : Event :=
  {| title := title; description := description; date_ := date_;
     start_at := start_at; end_at := end_at; id_ := fresh; reminders := [] |}.

(** [Event.add_reminder] *)
Definition add_reminder (self : Event) (date_time : datetime) (type_ : string)
  : Event :=
  let reminder := {| date_time := date_time; type_ := type_ |} in
  set_reminders self (reminders self ++ [reminder]).

(** [Event.delete_reminder] *)
Definition delete_reminder (self : Event) (reminder_index : Z)
  : outcome unit * Event :=
  if (0 <=? reminder_index) && (reminder_index <? Z.of_nat (length (reminders self)))
  then (Return tt, set_reminders self (delete (Z.to_nat reminder_index) (reminders self)))
  else (reminder_not_found_error, self).

End Event.

(** ** Day *)

Record Day := { Day_date : date; slots : list (time * option string) }.

Definition set_slots (self : Day) (s : list (time * option string)) : Day :=
  {| Day_date := Day_date self; slots := s |}.

(** The quarter hours 00:00, 00:15, ..., 23:45, all free: the dict
    [_init_slots] holds from its 96th pass on (see [init_slots_builds_grid]). *)
Definition grid_times : list time :=
  h ← seqZ 0 24; m ← [0; 15; 30; 45]; [Time h m 0 0].

Definition Day_grid : list (time * option string) :=
  (fun t => (t, None)) <$> grid_times.

(** [start_at <= slot < end_at] *)
Definition in_range (start_at end_at slot : time) : bool :=
  time_le start_at slot && time_lt slot end_at.

Module Day.

(** [Day._init_slots]: the while loop, entered with [t] and the dict built so
    far. [today] is what [date.today()] returns. *)
Fixpoint init_slots_loop (fuel : nat) (today : date) (t : time)
    (slots : list (time * option string)) : outcome (list (time * option string)) :=
  match fuel with
  | O => OutOfFuel
  | S fuel =>
      if time_lt t (Time 23 59 0 0) then
        let slots := dict_set slots t None in
        match time_after today t 15 with
        | Return t => init_slots_loop fuel today t slots
        | Raise e => Raise e
        | OutOfFuel => OutOfFuel
        end
      else Return slots
  end.

Definition _init_slots (fuel : nat) (today : date)
  : outcome (list (time * option string)) :=
  init_slots_loop fuel today (Time 0 0 0 0) [].

(** [Day.__init__] *)
Definition init (fuel : nat) (today : date) (date_ : date) : outcome Day :=
  match _init_slots fuel today with
  | Return s => Return {| Day_date := date_; slots := s |}
  | Raise e => Raise e
  | OutOfFuel => OutOfFuel
  end.

(** [Day.add_event]: the for loop over the keys still to visit, with the dict
    as the passes before have left it. *)
Fixpoint add_event_loop (event_id : string) (start_at end_at : time)
    (keys : list time) (slots : list (time * option string))
  : outcome unit * list (time * option string) :=
  match keys with
  | [] => (Return tt, slots)
  | slot :: keys =>
      if in_range start_at end_at slot then
        match dict_get slots slot with
        | Some (Some _) => (slot_not_available_error, slots)
        | Some None =>
            add_event_loop event_id start_at end_at keys
              (dict_set slots slot (Some event_id))
        | None => (Raise KeyError, slots)
        end
      else add_event_loop event_id start_at end_at keys slots
  end.

Definition add_event (self : Day) (event_id : string) (start_at end_at : time)
  : outcome unit * Day :=
  let (r, s) := add_event_loop event_id start_at end_at (slots self).*1 (slots self) in
  (r, set_slots self s).

(** [Day.delete_event]: the for loop, with the [deleted] flag. *)
Fixpoint delete_event_loop (event_id : string) (keys : list time)
    (slots : list (time * option string)) (deleted : bool)
  : list (time * option string) * bool :=
  match keys with
  | [] => (slots, deleted)
  | slot :: keys =>
      if decide (dict_get slots slot = Some (Some event_id)) then
        delete_event_loop event_id keys (dict_set slots slot None) true
      else delete_event_loop event_id keys slots deleted
  end.

Definition delete_event (self : Day) (event_id : string) : outcome unit * Day :=
  let (s, deleted) := delete_event_loop event_id (slots self).*1 (slots self) false in
  if negb deleted then (event_not_found_error, set_slots self s)
  else (Return tt, set_slots self s).

(** [Day.update_event] *)
Definition update_event (self : Day) (event_id : string) (start_at end_at : time)
  : outcome unit * Day :=
  match delete_event self event_id with
  | (Return _, self) => add_event self event_id start_at end_at
  | (r, self) => (r, self)
  end.

End Day.

(** ** Calendar *)

Record Calendar := { days : gmap date Day; events : gmap string Event }.

Definition set_days (self : Calendar) (ds : gmap date Day) : Calendar :=
  {| days := ds; events := events self |}.

Definition set_events (self : Calendar) (es : gmap string Event) : Calendar :=
  {| days := days self; events := es |}.

(** A method of [Calendar]: from the calendar to the outcome and the calendar
    as the call leaves it. A failure ends the method where it is raised, with
    the changes made so far. *)
Definition M (A : Type) : Type := Calendar -> outcome A * Calendar.

Definition ret {A} (a : A) : M A := fun self => (Return a, self).

Definition raise {A} (e : error) : M A := fun self => (Raise e, self).

Definition bind {A B} (m : M A) (k : A -> M B) : M B :=
  fun self =>
    match m self with
    | (Return a, self) => k a self
    | (Raise e, self) => (Raise e, self)
    | (OutOfFuel, self) => (OutOfFuel, self)
    end.

Notation "x <- m ;; k" := (bind m (fun x => k))
  (at level 100, m at next level, right associativity).
Notation "m ;;; k" := (bind m (fun _ => k))
  (at level 100, right associativity).

(** Reads of the two indices. *)
Definition days_get (date_ : date) : M (option Day) :=
  fun self => (Return (days self !! date_), self).

Definition events_get (event_id : string) : M (option Event) :=
  fun self => (Return (events self !! event_id), self).

(** [self.days[date_].method(...)]: KeyError when the date has no Day;
    otherwise the Day object is changed in place. *)
Definition on_day {A} (date_ : date) (method : Day -> outcome A * Day) : M A :=
  fun self =>
    match days self !! date_ with
    | None => (Raise KeyError, self)
    | Some d =>
        let (r, d) := method d in (r, set_days self (<[date_ := d]> (days self)))
    end.

(** A change of the event object [event_id] names, seen through the index. *)
Definition on_event {A} (event_id : string) (method : Event -> outcome A * Event)
  : M A :=
  fun self =>
    match events self !! event_id with
    | None => (Raise KeyError, self)
    | Some e =>
        let (r, e) := method e in
        (r, set_events self (<[event_id := e]> (events self)))
    end.

(** An outcome that leaves the calendar as it is. *)
Definition lift_outcome {A} (o : outcome A) : M A := fun self => (o, self).

(** [self.days[date_] = d], [self.events[event_id] = e] and
    [self.events.pop(event_id, None)]. *)
Definition days_set (date_ : date) (d : Day) : M unit :=
  fun self => (Return tt, set_days self (<[date_ := d]> (days self))).

Definition events_set (event_id : string) (e : Event) : M unit :=
  fun self => (Return tt, set_events self (<[event_id := e]> (events self))).

Definition events_pop (event_id : string) : M (option Event) :=
  fun self => (Return (events self !! event_id),
               set_events self (delete event_id (events self))).

Module Calendar.

(** [Calendar.__init__] *)
Definition init : Calendar := {| days := ∅; events := ∅ |}.

(** [Calendar.add_event]. [today] is [datetime.now().date()] and
    [date.today()], [fresh] the id [generate_unique_id()] gives the Event. *)
Definition add_event (fuel : nat) (today : date) (fresh : string)
    (title description : string) (date_ : date) (start_at end_at : time)
  : M string :=
  (if date_lt date_ today then lift_outcome date_lower_than_today_error
   else ret tt) ;;;
  (d <- days_get date_ ;;
   match d with
   | None => (d <- lift_outcome (Day.init fuel today date_) ;; days_set date_ d)
   | Some _ => ret tt
   end) ;;;
  (let event := Event.init title description date_ start_at end_at fresh in
   on_day date_ (fun d => Day.add_event d (id_ event) start_at end_at) ;;;
   events_set (id_ event) event ;;;
   ret (id_ event)).

(** [Calendar.add_reminder] *)
Definition add_reminder (event_id : string) (date_time : datetime) (type_ : string)
  : M unit :=
  event <- events_get event_id ;;
  match event with
  | None => lift_outcome event_not_found_error
  | Some _ =>
      on_event event_id (fun e => (Return tt, Event.add_reminder e date_time type_))
  end.

(** [Calendar.find_available_slots] *)
Definition find_available_slots (date_ : date) : M (list time) :=
  d <- days_get date_ ;;
  match d with
  | Some d => ret ((filter (fun kv => kv.2 = None) (slots d)).*1)
  | None => ret []
  end.

(** [Calendar.delete_event] *)
Definition delete_event (event_id : string) : M unit :=
  event <- events_pop event_id ;;
  match event with
  | None => lift_outcome event_not_found_error
  | Some event =>
      d <- days_get (date_ event) ;;
      match d with
      | Some _ => on_day (date_ event) (fun d => Day.delete_event d event_id)
      | None => ret tt
      end
  end.

(** [Calendar.update_event] *)
Definition update_event (fuel : nat) (today : date) (fresh : string)
    (event_id : string) (title description : string) (date_' : date)
    (start_at end_at : time) : M unit :=
  event <- events_get event_id ;;
  match event with
  | None => lift_outcome event_not_found_error
  | Some event =>
      let is_new_date := bool_decide (date_ event <> date_') in
      if is_new_date then
        (delete_event event_id ;;;
         add_event fuel today fresh title description date_' start_at end_at ;;;
         ret tt)
      else
        (on_event event_id
           (fun e => (Return tt, set_title_description e title description)) ;;;
         on_day date_' (fun d => Day.update_event d event_id start_at end_at))
  end.

(** [Calendar.find_events]: the keys are the ints [range] yields. The order
    of [self.events.values()] is left to the map. *)
Definition find_events (start_at end_at : date) : M (list (Z * list Event)) :=
  fun self =>
    (Return
       ((fun d => (d, filter (fun e => date_le start_at (date_ e)
                                       && date_le (date_ e) end_at)
                      (map_to_list (events self)).*2))
          <$> seqZ 0 (days_between end_at start_at)),
     self).

(** [Calendar.delete_reminder] *)
Definition delete_reminder (event_id : string) (reminder_index : Z) : M unit :=
  event <- events_get event_id ;;
  match event with
  | None => lift_outcome event_not_found_error
  | Some _ => on_event event_id (fun e => Event.delete_reminder e reminder_index)
  end.

(** [Calendar.list_reminders] *)
Definition list_reminders (event_id : string) : M (list Reminder) :=
  event <- events_get event_id ;;
  match event with
  | None => lift_outcome event_not_found_error
  | Some event => ret (reminders event)
  end.

End Calendar.

(** ** The functions after the classes ("Metodos predefinidos para Day") *)

(** The truth value of what a slot holds: [None] and the empty string are
    false, any other string is true. *)
Definition truthy (v : option string) : bool :=
  match v with
  | Some s => negb (bool_decide (s = EmptyString))
  | None => false
  end.

Module Toplevel.

(** The first for loop of the function [update_event]: the slots that hold
    [event_id] are set to [None]. *)
Fixpoint update_event_clear (event_id : string) (keys : list time)
    (slots : list (time * option string)) : list (time * option string) :=
  match keys with
  | [] => slots
  | slot :: keys =>
      if decide (dict_get slots slot = Some (Some event_id)) then
        update_event_clear event_id keys (dict_set slots slot None)
      else update_event_clear event_id keys slots
  end.

(** Its second for loop: a slot of the range that holds a true value stops
    the loop, any other is written. *)
Fixpoint update_event_book (event_id : string) (start_at end_at : time)
    (keys : list time) (slots : list (time * option string))
  : outcome unit * list (time * option string) :=
  match keys with
  | [] => (Return tt, slots)
  | slot :: keys =>
      if in_range start_at end_at slot then
        match dict_get slots slot with
        | Some v =>
            if truthy v then (slot_not_available_error, slots)
            else update_event_book event_id start_at end_at keys
                   (dict_set slots slot (Some event_id))
        | None => (Raise KeyError, slots)
        end
      else update_event_book event_id start_at end_at keys slots
  end.

(** The function [update_event(self, event_id, start_at, end_at)]. *)
Definition update_event (self : Day) (event_id : string) (start_at end_at : time)
  : outcome unit * Day :=
  let s := update_event_clear event_id (slots self).*1 (slots self) in
  let (r, s) := update_event_book event_id start_at end_at s.*1 s in
  (r, set_slots self s).

End Toplevel.

(** What [Day.delete_event] writes into an entry it frees. *)
Definition unbook (event_id : string) (kv : time * option string)
  : time * option string :=
  if decide (kv.2 = Some event_id) then (kv.1, None) else kv.

(** ** The public operations as requests, and the states they reach *)

Inductive request :=
  | AddEvent (title description : string) (date_ : date) (start_at end_at : time)
  | AddReminder (event_id : string) (date_time : datetime) (type_ : string)
  | FindAvailableSlots (date_ : date)
  | UpdateEvent (event_id title description : string) (date_ : date)
      (start_at end_at : time)
  | DeleteEvent (event_id : string)
  | FindEvents (start_at end_at : date)
  | DeleteReminder (event_id : string) (reminder_index : Z)
  | ListReminders (event_id : string).

(** One call of a public operation, its value dropped. *)
Definition call (fuel : nat) (today : date) (fresh : string) (r : request)
  : M unit :=
  match r with
  | AddEvent t d date_ s e =>
      (Calendar.add_event fuel today fresh t d date_ s e ;;; ret tt)
  | AddReminder i dt ty => Calendar.add_reminder i dt ty
  | FindAvailableSlots date_ => (Calendar.find_available_slots date_ ;;; ret tt)
  | UpdateEvent i t d date_ s e =>
      Calendar.update_event fuel today fresh i t d date_ s e
  | DeleteEvent i => Calendar.delete_event i
  | FindEvents s e => (Calendar.find_events s e ;;; ret tt)
  | DeleteReminder i n => Calendar.delete_reminder i n
  | ListReminders i => (Calendar.list_reminders i ;;; ret tt)
  end.

(** The calendars reached from [c0] by calls that come back (with a value or
    a failure), every request in [P]. *)
Inductive reachable_from (P : request -> Prop) (c0 : Calendar) : Calendar -> Prop :=
  | reachable_start : reachable_from P c0 c0
  | reachable_call c fuel today fresh r o c' :
      reachable_from P c0 c ->
      P r ->
      call fuel today fresh r c = (o, c') ->
      o <> OutOfFuel ->
      reachable_from P c0 c'.

(** The requests that give an event its times give them in order. *)
Definition ordered_request (r : request) : Prop :=
  match r with
  | AddEvent _ _ _ s e | UpdateEvent _ _ _ _ s e => time_lt s e = true
  | _ => True
  end.

(** spec section 3, Event: start time < end time, for every indexed event. *)
Definition times_ordered (c : Calendar) : Prop :=
  forall i e, events c !! i = Some e -> time_lt (start_at e) (end_at e) = true.

(** Every event of [es'] has the times it had in [es], or is in [N]. *)
Definition keeps_times (es es' : gmap string Event) (N : Event -> Prop) : Prop :=
  forall i e', es' !! i = Some e' ->
    (exists e, es !! i = Some e
               /\ start_at e' = start_at e /\ end_at e' = end_at e)
    \/ N e'.

(** The events a request gives its own times to. *)
Definition times_of (r : request) (e' : Event) : Prop :=
  match r with
  | AddEvent _ _ _ s e | UpdateEvent _ _ _ _ s e =>
      start_at e' = s /\ end_at e' = e
  | _ => False
  end.

(** ** Predicates on slots *)

(** The times the loop of [_init_slots] passes through. *)
Definition on_grid (t : time) : Prop :=
  0 <= hour t < 24 /\ 0 <= minute t < 60 /\ minute t mod 15 = 0.

(** One pass of the loop of [_init_slots] when the date does not overflow:
    the time and the dict after it. *)
Definition init_slots_pass (st : time * list (time * option string))
  : time * list (time * option string) :=
  let total := hour st.1 * 60 + minute st.1 + 15 in
  (Time ((total / 60) mod 24) (total mod 60) (second st.1) (microsecond st.1),
   dict_set st.2 st.1 None).

Definition chronological (l : list time) : Prop :=
  StronglySorted (fun a b => time_lt a b = true) l.

(** The slot is booked to [event_id]; the slot is there and free. *)
Definition booked_to (s : list (time * option string)) (slot : time)
    (event_id : string) : Prop :=
  dict_get s slot = Some (Some event_id).

Definition free (s : list (time * option string)) (slot : time) : Prop :=
  dict_get s slot = Some None.

(** What [Day.add_event] writes into an entry it books. *)
Definition book (event_id : string) (start_at end_at : time)
    (kv : time * option string) : time * option string :=
  if in_range start_at end_at kv.1 then (kv.1, Some event_id) else kv.

(** ** Sample data *)

Definition jan9 : date := Date 2024 1 9.
Definition jan10 : date := Date 2024 1 10.
Definition jan12 : date := Date 2024 1 12.

Definition at_ (h m : Z) : time := Time h m 0 0.

(** A calendar with no event and the Day of 2024-01-10, its grid free. *)
Definition cal_free_day : Calendar :=
  {| days := {[ jan10 := {| Day_date := jan10; slots := Day_grid |} ]};
     events := ∅ |}.

(** The same after [add_event("Standup", "daily sync", 2024-01-10, 09:00,
    10:00)] on 2024-01-10, the event getting the id ["a"]. *)
Definition cal_standup : Calendar :=
  (Calendar.add_event 0 jan10 "a" "Standup" "daily sync" jan10
     (at_ 9 0) (at_ 10 0) cal_free_day).2.

(** The event of that call and the Day it leaves. *)
Definition standup : Event :=
  Event.init "Standup" "daily sync" jan10 (at_ 9 0) (at_ 10 0) "a".

Definition day_standup : Day :=
  (Day.add_event {| Day_date := jan10; slots := Day_grid |} "a"
     (at_ 9 0) (at_ 10 0)).2.

(** [cal_free_day] after [add_event("Empty", "", 2024-01-10, 10:00, 10:00)],
    the event getting the id ["z"]. *)
Definition cal_empty_range : Calendar :=
  (Calendar.add_event 0 jan10 "z" "Empty" "" jan10
     (at_ 10 0) (at_ 10 0) cal_free_day).2.

(** [cal_free_day] after [add_event("Backwards", "", 2024-01-10, 10:00,
    09:00)], the event getting the id ["y"]. *)
Definition cal_backwards : Calendar :=
  (Calendar.add_event 0 jan10 "y" "Backwards" "" jan10
     (at_ 10 0) (at_ 9 0) cal_free_day).2.

(** Every event is indexed under its own id. *)
Definition index_by_id (c : Calendar) : Prop :=
  forall i e, events c !! i = Some e -> id_ e = i.

(** The two day indices hold Days for the same dates, and each Day has kept
    its date and its slot keys, in their order. *)
Definition same_grid (ds ds' : gmap date Day) : Prop :=
  forall d,
    match ds !! d, ds' !! d with
    | Some dy, Some dy' =>
        Day_date dy' = Day_date dy /\ (slots dy').*1 = (slots dy).*1
    | None, None => True
    | _, _ => False
    end.

(** [cal_standup] with a second Day, that of 2024-01-12, its grid free. *)
Definition cal_two_days : Calendar :=
  set_days cal_standup
    (<[jan12 := {| Day_date := jan12; slots := Day_grid |}]> (days cal_standup)).

(** [day_standup] after a second booking, of 10:00-11:00 to the id ["b"]. *)
Definition day_two_events : Day :=
  (Day.add_event day_standup "b" (at_ 10 0) (at_ 11 0)).2.

(** * Properties *)

(** ** The orders on times and dates *)

Ltac compare_cases :=
  unfold time_lt, time_le, time_cmp, date_lt, date_le, date_cmp, lex in *;
  simpl in *;
  repeat match goal with
    | |- context [?x ?= ?y] => destruct (Z.compare_spec x y); subst
    | H : context [?x ?= ?y] |- _ => destruct (Z.compare_spec x y); subst
    end;
  simpl in *; try congruence; try lia.

Lemma time_lt_irrefl a : time_lt a a = false.
Proof. destruct a. compare_cases. Qed.

Lemma date_lt_irrefl a : date_lt a a = false.
Proof. destruct a. compare_cases. Qed.

Lemma time_lt_trans a b c :
  time_lt a b = true -> time_lt b c = true -> time_lt a c = true.
Proof. destruct a, b, c. compare_cases. Qed.

Lemma time_le_trans a b c :
  time_le a b = true -> time_le b c = true -> time_le a c = true.
Proof. destruct a, b, c. compare_cases. Qed.

Lemma time_le_not_lt a b : time_le a b = true -> time_lt b a = false.
Proof. destruct a, b. compare_cases. Qed.

Lemma in_range_shrink start_at end2 end1 slot :
  time_lt end2 end1 = true ->
  in_range start_at end2 slot = true -> in_range start_at end1 slot = true.
Proof.
  unfold in_range. intros Hlt [Hs He]%andb_prop.
  rewrite Hs. simpl. eauto using time_lt_trans.
Qed.

Lemma in_range_tail start_at end2 end1 slot :
  time_le start_at end2 = true ->
  in_range end2 end1 slot = true ->
  in_range start_at end1 slot = true /\ in_range start_at end2 slot = false.
Proof.
  unfold in_range. intros Hle [Hs He]%andb_prop. split.
  - rewrite He, (time_le_trans _ _ _ Hle Hs). done.
  - rewrite (time_le_not_lt _ _ Hs). apply andb_false_r.
Qed.

(** ** Dicts *)

Section DictFacts.
Context {K V : Type} `{EqDecision K}.
Implicit Types (d : list (K * V)) (k : K) (v : V).

Lemma dict_get_set_eq d k v : dict_get (dict_set d k v) k = Some v.
Proof.
  induction d as [|[k' v'] d IH]; simpl.
  - by rewrite decide_True.
  - destruct (decide (k' = k)) as [->|Hne]; simpl.
    + by rewrite decide_True.
    + by rewrite decide_False.
Qed.

Lemma dict_get_set_ne d k k' v :
  k <> k' -> dict_get (dict_set d k v) k' = dict_get d k'.
Proof.
  intros Hne. induction d as [|[k0 v0] d IH]; simpl.
  - by rewrite decide_False.
  - destruct (decide (k0 = k)) as [->|Hne0]; simpl.
    + by rewrite !decide_False.
    + by rewrite IH.
Qed.

Lemma dict_get_set d k k' v :
  dict_get (dict_set d k v) k' = if decide (k = k') then Some v else dict_get d k'.
Proof.
  destruct (decide (k = k')) as [->|Hne].
  - apply dict_get_set_eq.
  - by apply dict_get_set_ne.
Qed.

(** Writing a key that is there keeps the keys and their order. *)
Lemma dict_set_keys d k v : is_Some (dict_get d k) -> (dict_set d k v).*1 = d.*1.
Proof.
  induction d as [|[k' v'] d IH]; simpl; intros Hk.
  - by destruct Hk.
  - destruct (decide (k' = k)); [done|]. rewrite !fmap_cons. f_equal. auto.
Qed.

Lemma dict_get_Some_key d k v : dict_get d k = Some v -> k ∈ d.*1.
Proof.
  induction d as [|[k' v'] d IH]; simpl; [done|].
  destruct (decide (k' = k)) as [->|]; intros Hk.
  - apply list_elem_of_here.
  - apply list_elem_of_further. auto.
Qed.

Lemma dict_get_key d k : k ∈ d.*1 -> is_Some (dict_get d k).
Proof.
  induction d as [|[k' v'] d IH]; simpl.
  - by intros ?%elem_of_nil.
  - intros Hin. destruct (decide (k' = k)); [eauto|].
    apply elem_of_cons in Hin as [->|Hin]; [done|auto].
Qed.

(** In a dict (no key twice) the entries are what [dict_get] reads. *)
Lemma dict_get_elem_of d k v :
  NoDup d.*1 -> (k, v) ∈ d <-> dict_get d k = Some v.
Proof.
  induction d as [|[k' v'] d IH]; simpl; intros Hnd.
  - split; [by intros ?%elem_of_nil|done].
  - apply NoDup_cons in Hnd as [Hk' Hnd].
    destruct (decide (k' = k)) as [->|Hne]; split.
    + intros [[= ->]|Hin]%elem_of_cons; [done|].
      destruct Hk'. apply list_elem_of_fmap. by exists (k, v).
    + intros [= ->]. apply list_elem_of_here.
    + intros [[= -> ->]|Hin]%elem_of_cons; [done|]. by apply IH.
    + intros Hg. apply list_elem_of_further. by apply IH.
Qed.

(** Writing the key of an entry changes that entry where it stands. *)
Lemma dict_set_middle (pre post : list (K * V)) k v v' :
  k ∉ pre.*1 ->
  dict_set (pre ++ (k, v) :: post) k v' = pre ++ (k, v') :: post.
Proof.
  induction pre as [|[k0 v0] pre IH]; simpl; intros Hk.
  - by rewrite decide_True.
  - apply not_elem_of_cons in Hk as [Hne Hk].
    rewrite decide_False by done. by rewrite IH.
Qed.

Lemma dict_get_middle (pre post : list (K * V)) k v :
  k ∉ pre.*1 -> dict_get (pre ++ (k, v) :: post) k = Some v.
Proof.
  induction pre as [|[k0 v0] pre IH]; simpl; intros Hk.
  - by rewrite decide_True.
  - apply not_elem_of_cons in Hk as [Hne Hk].
    rewrite decide_False by done. by apply IH.
Qed.

End DictFacts.

(** ** Day construction *)

Lemma on_grid_before_last t : on_grid t -> time_lt t (Time 23 59 0 0) = true.
Proof.
  destruct t as [h m s us]. unfold on_grid. simpl. intros (Hh & Hm & Hmod).
  compare_cases. all: by vm_compute in Hmod.
Qed.

Lemma on_grid_pass t s : on_grid t -> on_grid (init_slots_pass (t, s)).1.
Proof.
  destruct t as [h m sec us]. unfold on_grid. simpl. intros (Hh & Hm & Hmod).
  repeat split; try (apply Z.mod_pos_bound; lia).
  rewrite Z.mod_mod_divide by (by exists 4).
  replace (h * 60 + m + 15) with (m + (4 * h + 1) * 15) by lia.
  by rewrite Z.mod_add.
Qed.

Lemma time_after_pass today t s :
  time_after today t 15 = Return (init_slots_pass (t, s)).1
  \/ time_after today t 15 = Raise OverflowError.
Proof. unfold time_after. simpl. case_match; auto. Qed.

Lemma time_after_no_overflow today t s :
  1 <= toordinal today < MAXORDINAL -> on_grid t ->
  time_after today t 15 = Return (init_slots_pass (t, s)).1.
Proof.
  intros Htoday (Hh & Hm & _). unfold time_after. simpl.
  assert (0 <= (hour t * 60 + minute t + 15) / 1440 <= 1) as Hcarry.
  { split; [apply Z.div_pos; lia|].
    apply Z.lt_succ_r, Z.div_lt_upper_bound; lia. }
  rewrite andb_true_intro; [done|]. split; [apply Z.leb_le|apply Z.leb_le]; lia.
Qed.

Lemma init_slots_loop_never_returns fuel today t s :
  on_grid t ->
  Day.init_slots_loop fuel today t s = OutOfFuel
  \/ Day.init_slots_loop fuel today t s = Raise OverflowError.
Proof.
  revert t s. induction fuel as [|fuel IH]; intros t s Ht; simpl; [auto|].
  rewrite on_grid_before_last by done.
  destruct (time_after_pass today t s) as [-> | ->]; [|auto].
  apply IH. by apply on_grid_pass.
Qed.

(** From 00:00 and the empty dict, 96 passes lead back to 00:00 with the
    96 quarter hours in the dict, all free; 96 more leave that as it is. *)
Lemma grid_after_96_passes :
  Nat.iter 96 init_slots_pass (Time 0 0 0 0, []) = (Time 0 0 0 0, Day_grid).
Proof. vm_compute. reflexivity. Qed.

Lemma grid_after_192_passes :
  Nat.iter 96 init_slots_pass (Time 0 0 0 0, Day_grid) = (Time 0 0 0 0, Day_grid).
Proof. vm_compute. reflexivity. Qed.

Lemma grid_length : length Day_grid = 96%nat.
Proof. reflexivity. Qed.

Lemma grid_chronological : chronological grid_times.
Proof.
  apply Sorted_StronglySorted.
  - intros a b c. apply time_lt_trans.
  - unfold grid_times. simpl. repeat (constructor; [|try by constructor]).
    constructor.
Qed.

Lemma init_slots_loop_passes n fuel today t s :
  1 <= toordinal today < MAXORDINAL -> on_grid t ->
  Day.init_slots_loop (n + fuel) today t s
  = Day.init_slots_loop fuel today (Nat.iter n init_slots_pass (t, s)).1
      (Nat.iter n init_slots_pass (t, s)).2.
Proof.
  intros Htoday. revert t s. induction n as [|n IH]; intros t s Ht; [done|].
  rewrite Nat.iter_succ_r. cbn [Nat.add Day.init_slots_loop].
  rewrite on_grid_before_last by done.
  rewrite (time_after_no_overflow today t s) by done.
  rewrite IH by (by apply on_grid_pass). done.
Qed.

(** On any day but the last one of the calendar, the loop of [_init_slots]
    has built the grid after 96 passes and goes on from 00:00. *)
Lemma init_slots_builds_grid fuel today :
  1 <= toordinal today < MAXORDINAL ->
  Day._init_slots (96 + fuel) today
  = Day.init_slots_loop fuel today (Time 0 0 0 0) Day_grid.
Proof.
  intros Htoday. unfold Day._init_slots.
  rewrite init_slots_loop_passes, grid_after_96_passes; [done..|].
  by vm_compute.
Qed.

Lemma Day_init_outcome fuel today date_ :
  Day.init fuel today date_ = OutOfFuel
  \/ Day.init fuel today date_ = Raise OverflowError.
Proof.
  unfold Day.init, Day._init_slots.
  destruct (init_slots_loop_never_returns fuel today (Time 0 0 0 0) [])
    as [-> | ->]; auto.
  by vm_compute.
Qed.

(** C1 (fails on the code). [Day(date_)] never returns a Day: the loop of
    [_init_slots] steps from 23:45 to 00:00, which is before 23:59 again, so
    the construction runs forever, whatever the fuel (or, on the last day
    [date] can hold, raises OverflowError). *)
Theorem Day_init_never_returns (fuel : nat) (today date_ : date) :
  Day.init fuel today date_ = OutOfFuel
  \/ Day.init fuel today date_ = Raise OverflowError.
Proof. apply Day_init_outcome. Qed.

(** ** Reminders *)

Lemma delete_last {A} (l : list A) (x : A) : delete (length l) (l ++ [x]) = l.
Proof. induction l as [|y l IH]; simpl; [done|]. by rewrite IH. Qed.

(** C10. A reminder added and then deleted by its index, the count less one,
    leaves the event with the reminders it had, in length and contents. *)
Theorem add_then_delete_reminder (e : Event) (dt : datetime) (ty : string) :
  Event.delete_reminder (Event.add_reminder e dt ty)
    (Z.of_nat (length (reminders (Event.add_reminder e dt ty))) - 1)
  = (Return tt, e).
Proof.
  destruct e as [t d da s en i rs]. unfold Event.delete_reminder. simpl.
  rewrite length_app. simpl.
  replace (Z.of_nat (length rs + 1) - 1) with (Z.of_nat (length rs)) by lia.
  rewrite Nat2Z.id, delete_last.
  rewrite andb_true_intro; [done|]. split; [apply Z.leb_le|apply Z.ltb_lt]; lia.
Qed.

(** ** find_events *)

(** C2 (fails on the code). The keys of [find_events(start_at, end_at)] are
    the ints [0 .. (end_at - start_at).days - 1], not dates, one fewer than
    the dates of the inclusive range; a range of one date gives no key at
    all. Every key maps to the stored events dated within the range. *)
Theorem find_events_keys (c : Calendar) (start_at end_at : date) :
  exists r,
    Calendar.find_events start_at end_at c = (Return r, c)
    /\ r.*1 = seqZ 0 (days_between end_at start_at)
    /\ (forall d l, (d, l) ∈ r ->
        forall e, e ∈ l <->
          (exists i, events c !! i = Some e)
          /\ date_le start_at (date_ e) = true /\ date_le (date_ e) end_at = true)
    /\ (start_at = end_at -> r = []).
Proof.
  eexists. split; [reflexivity|]. split; [|split].
  - rewrite <- list_fmap_compose. apply list_fmap_id.
  - intros d l [d' [[= -> ->] _]]%list_elem_of_fmap e.
    rewrite list_elem_of_filter, list_elem_of_fmap.
    rewrite andb_True, !Is_true_true. split.
    + intros [Hr [[i e'] [-> Hin%elem_of_map_to_list]]]. eauto.
    + intros [[i Hi] Hr]. split; [done|]. exists (i, e). split; [done|].
      by apply elem_of_map_to_list.
  - intros ->. unfold days_between. by rewrite Z.sub_diag.
Qed.

(** ** Day.delete_event *)

Lemma delete_event_loop_get event_id keys s deleted k :
  dict_get (Day.delete_event_loop event_id keys s deleted).1 k
  = if decide (k ∈ keys /\ dict_get s k = Some (Some event_id))
    then Some None else dict_get s k.
Proof.
  revert s deleted. induction keys as [|slot keys IH]; intros s deleted;
    cbn [Day.delete_event_loop fst].
  - rewrite decide_False; [done|]. by intros [?%elem_of_nil _].
  - destruct (decide (dict_get s slot = Some (Some event_id))) as [Hb|Hb];
      rewrite IH; clear IH.
    + rewrite dict_get_set. destruct (decide (slot = k)) as [->|Hne].
      * rewrite decide_False by (by intros [_ [=]]).
        rewrite decide_True; [done|]. split; [apply list_elem_of_here|done].
      * repeat case_decide; try done.
        -- destruct H0. split; [apply list_elem_of_further|]; tauto.
        -- destruct H. destruct H0 as [[->|?]%elem_of_cons ?]; done.
    + repeat case_decide; try done.
      * destruct H0. split; [apply list_elem_of_further|]; tauto.
      * destruct H. destruct H0 as [[->|?]%elem_of_cons ?]; done.
Qed.

Lemma delete_event_loop_flag_true event_id keys s :
  (Day.delete_event_loop event_id keys s true).2 = true.
Proof.
  revert s. induction keys as [|slot keys IH]; intros s;
    cbn [Day.delete_event_loop snd]; [done|].
  case_decide; apply IH.
Qed.

Lemma delete_event_loop_flag event_id keys s :
  (Day.delete_event_loop event_id keys s false).2 = true
  <-> exists k, k ∈ keys /\ dict_get s k = Some (Some event_id).
Proof.
  revert s. induction keys as [|slot keys IH]; intros s;
    cbn [Day.delete_event_loop snd].
  - split; [done|]. by intros (k & ?%elem_of_nil & _).
  - case_decide as Hb.
    + rewrite delete_event_loop_flag_true. split; [|done].
      intros _. exists slot. split; [apply list_elem_of_here|done].
    + rewrite IH. split.
      * intros (k & Hin & Hk). exists k. split; [by apply list_elem_of_further|done].
      * intros (k & [->|Hin]%elem_of_cons & Hk); [done|eauto].
Qed.

Lemma delete_event_loop_keys event_id keys s deleted :
  keys ⊆ s.*1 ->
  (Day.delete_event_loop event_id keys s deleted).1.*1 = s.*1.
Proof.
  revert s deleted. induction keys as [|slot keys IH]; intros s deleted Hsub;
    cbn [Day.delete_event_loop fst]; [done|].
  assert (keys ⊆ s.*1) as Hsub'
    by (intros k Hk; by apply Hsub, list_elem_of_further).
  case_decide as Hb.
  - rewrite IH; rewrite dict_set_keys; eauto.
  - by apply IH.
Qed.

(** [Day.delete_event] fails exactly when no slot is booked to the id, and
    otherwise frees the slots booked to it and no other. *)
Lemma Day_delete_event_spec (self : Day) (event_id : string) :
  exists r self',
    Day.delete_event self event_id = (r, self')
    /\ ((exists k, booked_to (slots self) k event_id) /\ r = Return tt
        \/ (forall k, ~ booked_to (slots self) k event_id) /\ r = Raise EventNotFound)
    /\ Day_date self' = Day_date self
    /\ (slots self').*1 = (slots self).*1
    /\ forall k, dict_get (slots self') k
         = if decide (dict_get (slots self) k = Some (Some event_id))
           then Some None else dict_get (slots self) k.
Proof.
  unfold Day.delete_event, booked_to.
  pose proof (delete_event_loop_flag event_id (slots self).*1 (slots self)) as Hflag.
  pose proof (delete_event_loop_keys event_id (slots self).*1 (slots self) false) as Hkeys.
  pose proof (delete_event_loop_get event_id (slots self).*1 (slots self) false) as Hget.
  destruct (Day.delete_event_loop event_id (slots self).*1 (slots self) false)
    as [s deleted]. simpl in *.
  exists (if deleted then Return tt else Raise EventNotFound), (set_slots self s).
  split; [by destruct deleted|]. split; [|split; [done|split; [by apply Hkeys|]]].
  - destruct deleted.
    + left. split; [|done]. destruct (proj1 Hflag eq_refl) as (k & _ & Hk). eauto.
    + right. split; [|done]. intros k Hk.
      assert (false = true) by (apply Hflag; eauto using dict_get_Some_key). done.
  - intros k. rewrite Hget.
    destruct (decide (dict_get (slots self) k = Some (Some event_id))) as [Hk|Hk].
    + rewrite decide_True; [done|]. eauto using dict_get_Some_key.
    + rewrite decide_False; [done|]. tauto.
Qed.

(** ** Day.add_event *)

(** The loop keeps the keys, and ends normally or with SlotNotAvailable. *)
Lemma add_event_loop_keys event_id start_at end_at keys s :
  keys ⊆ s.*1 ->
  (Day.add_event_loop event_id start_at end_at keys s).2.*1 = s.*1
  /\ ((Day.add_event_loop event_id start_at end_at keys s).1 = Return tt
      \/ (Day.add_event_loop event_id start_at end_at keys s).1
         = Raise SlotNotAvailable).
Proof.
  revert s. induction keys as [|slot keys IH]; intros s Hsub;
    cbn [Day.add_event_loop]; [auto|].
  assert (keys ⊆ s.*1) as Hsub'
    by (intros k Hk; by apply Hsub, list_elem_of_further).
  destruct (in_range start_at end_at slot); [|by apply IH].
  destruct (dict_get_key s slot) as [[v|] Hv];
    [apply Hsub, list_elem_of_here|..]; rewrite Hv.
  - simpl. auto.
  - assert ((dict_set s slot (Some event_id)).*1 = s.*1) as Hk
      by (apply dict_set_keys; eauto).
    destruct (IH (dict_set s slot (Some event_id))) as [IH1 IH2].
    + by rewrite Hk.
    + by rewrite IH1, Hk.
Qed.

(** When the slots it targets are free, the loop books them all. *)
Lemma add_event_loop_free event_id start_at end_at keys s :
  NoDup keys ->
  (forall k, k ∈ keys -> in_range start_at end_at k = true -> free s k) ->
  (Day.add_event_loop event_id start_at end_at keys s).1 = Return tt
  /\ forall k,
       dict_get (Day.add_event_loop event_id start_at end_at keys s).2 k
       = if decide (k ∈ keys /\ in_range start_at end_at k = true)
         then Some (Some event_id) else dict_get s k.
Proof.
  unfold free. revert s. induction keys as [|slot keys IH]; intros s Hnd Hfree;
    cbn [Day.add_event_loop].
  - split; [done|]. intros k. rewrite decide_False; [done|].
    by intros [?%elem_of_nil _].
  - apply NoDup_cons in Hnd as [Hslot Hnd].
    destruct (in_range start_at end_at slot) eqn:Hr.
    + rewrite (Hfree slot) by (done || apply list_elem_of_here).
      destruct (IH (dict_set s slot (Some event_id)) Hnd) as [IH1 IH2].
      { intros k Hk Hkr. rewrite dict_get_set_ne by (by intros ->).
        apply Hfree; [by apply list_elem_of_further|done]. }
      split; [done|]. intros k. rewrite IH2, dict_get_set.
      destruct (decide (slot = k)) as [->|Hne].
      * rewrite decide_False by tauto.
        rewrite decide_True; [done|]. split; [apply list_elem_of_here|done].
      * destruct (decide (k ∈ keys /\ in_range start_at end_at k = true))
          as [[Hk Hkr]|Hn].
        -- rewrite decide_True; [done|]. split; [by apply list_elem_of_further|done].
        -- rewrite decide_False; [done|].
           intros [[->|Hk]%elem_of_cons Hkr]; [done|tauto].
    + destruct (IH s Hnd) as [IH1 IH2].
      { intros k Hk Hkr. apply Hfree; [by apply list_elem_of_further|done]. }
      split; [done|]. intros k. rewrite IH2.
      destruct (decide (k ∈ keys /\ in_range start_at end_at k = true))
        as [[Hk Hkr]|Hn].
      * rewrite decide_True; [done|]. split; [by apply list_elem_of_further|done].
      * rewrite decide_False; [done|].
        intros [[->|Hk]%elem_of_cons Hkr]; [congruence|tauto].
Qed.

(** When a targeted slot is taken, the loop stops at the first one, having
    booked the free targeted slots before it. *)
Lemma add_event_loop_conflict event_id start_at end_at done_ pre slot v post :
  NoDup (done_ ++ pre ++ (slot, Some v) :: post).*1 ->
  in_range start_at end_at slot = true ->
  Forall (fun kv => in_range start_at end_at kv.1 = true -> kv.2 = None) pre ->
  Day.add_event_loop event_id start_at end_at (pre.*1 ++ slot :: post.*1)
    (done_ ++ pre ++ (slot, Some v) :: post)
  = (Raise SlotNotAvailable,
     done_ ++ (book event_id start_at end_at <$> pre) ++ (slot, Some v) :: post).
Proof.
  revert done_. induction pre as [|[k x] pre IH]; intros done_ Hnd Hr Hpre.
  - cbn [fmap list_fmap app Day.add_event_loop]. rewrite Hr. rewrite dict_get_middle; [done|].
    rewrite fmap_app in Hnd. apply NoDup_app in Hnd as (_ & Hnd & _).
    intros Hin. apply (Hnd slot Hin). apply list_elem_of_here.
  - apply Forall_cons in Hpre as [Hk Hpre].
    assert (k ∉ done_.*1) as Hkd.
    { rewrite fmap_app in Hnd. apply NoDup_app in Hnd as (_ & Hnd & _).
      intros Hin. apply (Hnd k Hin). apply list_elem_of_here. }
    rewrite !fmap_cons. cbn [app Day.add_event_loop fst].
    specialize (IH (done_ ++ [(k, if in_range start_at end_at k
                                   then Some event_id else x)])).
    rewrite <- !(assoc_L (++)) in IH. cbn [app] in IH.
    unfold book at 1. cbn [fst].
    destruct (in_range start_at end_at k) eqn:Hkr.
    + simpl in Hk. rewrite (Hk Hkr), dict_get_middle by done.
      rewrite dict_set_middle by done. apply IH; [|done..].
      revert Hnd. rewrite !fmap_app, !fmap_cons, !fmap_app, !fmap_cons. done.
    + apply IH; done.
Qed.

(** A taken targeted slot has a first one. *)
Lemma first_conflict start_at end_at (s : list (time * option string)) k v :
  (k, Some v) ∈ s -> in_range start_at end_at k = true ->
  exists pre slot v' post,
    s = pre ++ (slot, Some v') :: post
    /\ in_range start_at end_at slot = true
    /\ Forall (fun kv => in_range start_at end_at kv.1 = true -> kv.2 = None) pre.
Proof.
  intros Hin Hr. induction s as [|[k0 x0] s IH]; [by apply elem_of_nil in Hin|].
  destruct (in_range start_at end_at k0) eqn:Hr0; [destruct x0 as [v0|]|].
  - by exists [], k0, v0, s.
  - apply elem_of_cons in Hin as [[=]|Hin].
    destruct (IH Hin) as (pre & slot & v' & post & -> & Hs & Hpre).
    exists ((k0, None) :: pre), slot, v', post.
    split; [done|]. split; [done|]. by constructor.
  - apply elem_of_cons in Hin as [[= -> <-]|Hin]; [congruence|].
    destruct (IH Hin) as (pre & slot & v' & post & -> & Hs & Hpre).
    exists ((k0, x0) :: pre), slot, v', post.
    split; [done|]. split; [done|]. constructor; [|done]. simpl. congruence.
Qed.

Lemma Day_add_event_outcome (self : Day) event_id start_at end_at :
  (slots (Day.add_event self event_id start_at end_at).2).*1 = (slots self).*1
  /\ ((Day.add_event self event_id start_at end_at).1 = Return tt
      \/ (Day.add_event self event_id start_at end_at).1 = Raise SlotNotAvailable).
Proof.
  unfold Day.add_event.
  destruct (add_event_loop_keys event_id start_at end_at (slots self).*1 (slots self))
    as [Hk Hr]; [done|].
  by destruct (Day.add_event_loop _ _ _ _ _).
Qed.

(** ** Calendar: the operations, case by case *)

Section CalendarCases.
Context (fuel : nat) (today : date) (fresh : string).
Implicit Types (c : Calendar) (e : Event) (dy : Day).

Lemma set_events_id c : set_events c (events c) = c.
Proof. by destruct c. Qed.

Lemma add_event_past c t d date_ s en :
  date_lt date_ today = true ->
  Calendar.add_event fuel today fresh t d date_ s en c = (Raise DateInPast, c).
Proof. intros Hlt. unfold Calendar.add_event, bind. by rewrite Hlt. Qed.

Lemma add_event_no_day c t d date_ s en :
  date_lt date_ today = false -> days c !! date_ = None ->
  Calendar.add_event fuel today fresh t d date_ s en c = (OutOfFuel, c)
  \/ Calendar.add_event fuel today fresh t d date_ s en c = (Raise OverflowError, c).
Proof.
  intros Hlt Hd. unfold Calendar.add_event, bind, days_get, lift_outcome, ret.
  rewrite Hlt, Hd.
  destruct (Day_init_outcome fuel today date_) as [-> | ->]; auto.
Qed.

Lemma add_event_day c t d date_ s en dy :
  date_lt date_ today = false -> days c !! date_ = Some dy ->
  Calendar.add_event fuel today fresh t d date_ s en c
  = match Day.add_event dy fresh s en with
    | (Return _, dy') =>
        (Return fresh,
         {| days := <[date_ := dy']> (days c);
            events := <[fresh := Event.init t d date_ s en fresh]> (events c) |})
    | (Raise err, dy') => (Raise err, set_days c (<[date_ := dy']> (days c)))
    | (OutOfFuel, dy') => (OutOfFuel, set_days c (<[date_ := dy']> (days c)))
    end.
Proof.
  intros Hlt Hd.
  unfold Calendar.add_event, bind, days_get, lift_outcome, ret, on_day, events_set.
  rewrite Hlt, Hd. simpl. rewrite Hd.
  by destruct (Day.add_event dy fresh s en) as [[| |] dy'].
Qed.

Lemma delete_event_absent c i :
  events c !! i = None ->
  Calendar.delete_event i c = (Raise EventNotFound, c).
Proof.
  intros Hi. unfold Calendar.delete_event, bind, events_pop, lift_outcome.
  rewrite Hi, delete_id by done. by rewrite set_events_id.
Qed.

Lemma delete_event_no_day c i e :
  events c !! i = Some e -> days c !! date_ e = None ->
  Calendar.delete_event i c = (Return tt, set_events c (delete i (events c))).
Proof.
  intros Hi Hd. unfold Calendar.delete_event, bind, events_pop, days_get, ret.
  rewrite Hi. simpl. by rewrite Hd.
Qed.

Lemma delete_event_day c i e dy :
  events c !! i = Some e -> days c !! date_ e = Some dy ->
  Calendar.delete_event i c
  = ((Day.delete_event dy i).1,
     {| days := <[date_ e := (Day.delete_event dy i).2]> (days c);
        events := delete i (events c) |}).
Proof.
  intros Hi Hd.
  unfold Calendar.delete_event, bind, events_pop, days_get, on_day,
    set_events, set_days.
  rewrite Hi. simpl. rewrite Hd. simpl. rewrite Hd.
  by destruct (Day.delete_event dy i) as [[| |] dy'].
Qed.

End CalendarCases.

(** C7. [add_event] raises DateInPast exactly when the date is strictly
    before the current date; for the current date itself it never does,
    whatever the times asked for and whatever the calendar holds. *)
Theorem add_event_date_in_past_iff (fuel : nat) (today : date) (fresh : string)
    (c : Calendar) (t d : string) (date_ : date) (s en : time) :
  ((Calendar.add_event fuel today fresh t d date_ s en c).1 = Raise DateInPast
   <-> date_lt date_ today = true)
  /\ (Calendar.add_event fuel today fresh t d today s en c).1 <> Raise DateInPast.
Proof.
  assert (forall date_,
    (Calendar.add_event fuel today fresh t d date_ s en c).1 = Raise DateInPast
    <-> date_lt date_ today = true) as Hiff.
  { clear date_. intros date_. destruct (date_lt date_ today) eqn:Hlt.
    - by rewrite add_event_past.
    - split; [|done]. destruct (days c !! date_) as [dy|] eqn:Hd.
      + rewrite (add_event_day _ _ _ _ _ _ _ _ _ dy) by done.
        destruct (Day_add_event_outcome dy fresh s en) as [_ Hr].
        destruct (Day.add_event dy fresh s en) as [r dy']. simpl in Hr.
        by destruct Hr as [-> | ->].
      + by destruct (add_event_no_day fuel today fresh c t d date_ s en)
          as [-> | ->]. }
  split; [apply Hiff|]. rewrite Hiff. by rewrite date_lt_irrefl.
Qed.

(** ** find_available_slots *)

Lemma chronological_sublist l1 l2 :
  sublist l1 l2 -> chronological l2 -> chronological l1.
Proof.
  unfold chronological. induction 1 as [|x l1 l2 Hsub IH|x l1 l2 Hsub IH];
    intros Hs; [done|..].
  - apply StronglySorted_inv in Hs as [Hs Hx]. constructor; [by apply IH|].
    apply Forall_forall. intros y Hy. rewrite Forall_forall in Hx.
    apply Hx. by apply (sublist_subseteq _ _ Hsub).
  - apply StronglySorted_inv in Hs as [Hs _]. by apply IH.
Qed.

(** C8. [find_available_slots(date_)] gives the free slots of the Day of that
    date and no other, in the order of the Day's slots, which is the
    chronological one when the slots are; it gives the empty list when the
    date has no Day, and leaves the calendar as it was. *)
Theorem find_available_slots_spec (c : Calendar) (date_ : date) :
  exists l,
    Calendar.find_available_slots date_ c = (Return l, c)
    /\ match days c !! date_ with
       | None => l = []
       | Some dy =>
           (forall t, t ∈ l <-> (t, None) ∈ slots dy)
           /\ (NoDup (slots dy).*1 -> forall t, t ∈ l <-> free (slots dy) t)
           /\ sublist l (slots dy).*1
           /\ (chronological (slots dy).*1 -> chronological l)
       end.
Proof.
  unfold Calendar.find_available_slots, bind, days_get, ret.
  destruct (days c !! date_) as [dy|]; [|by eexists].
  eexists. split; [done|].
  assert (forall t, t ∈ (filter (fun kv => kv.2 = None) (slots dy)).*1
                    <-> (t, None) ∈ slots dy) as Hin.
  { intros t. rewrite list_elem_of_fmap. split.
    - intros ([t' x] & -> & [Hx Ht]%list_elem_of_filter). simpl in *. by subst.
    - intros Ht. exists (t, None). split; [done|]. by apply list_elem_of_filter. }
  assert (sublist (filter (fun kv => kv.2 = None) (slots dy)).*1 (slots dy).*1)
    as Hsub by apply fmap_sublist, sublist_filter.
  split; [done|]. split; [|split; [done|by apply chronological_sublist]].
  intros Hnd t. rewrite Hin. by apply dict_get_elem_of.
Qed.

(** ** delete_event *)

(** On any calendar, also one that holds Days as data: [delete_event(id)]
    raises EventNotFound exactly when the id is not in the event index, or it
    is, the event's date has a Day and no slot of that Day is booked to the
    id; it raises nothing else. *)
Theorem delete_event_not_found_iff (c : Calendar) (i : string) :
  ((Calendar.delete_event i c).1 = Return tt
   \/ (Calendar.delete_event i c).1 = Raise EventNotFound)
  /\ ((Calendar.delete_event i c).1 = Raise EventNotFound
      <-> events c !! i = None
          \/ exists e dy, events c !! i = Some e /\ days c !! date_ e = Some dy
                          /\ forall k, ~ booked_to (slots dy) k i).
Proof.
  destruct (events c !! i) as [e|] eqn:Hi.
  - destruct (days c !! date_ e) as [dy|] eqn:Hd.
    + rewrite (delete_event_day c i e dy) by done. simpl.
      destruct (Day_delete_event_spec dy i) as (r & dy' & -> & Hr & _). simpl.
      destruct Hr as [[[k Hk] ->]|[Hk ->]].
      * split; [auto|]. split; [done|].
        intros [[=]|(e' & dy0 & [= <-] & Hd' & Hno)].
        rewrite Hd in Hd'. injection Hd' as <-. by destruct (Hno k).
      * split; [auto|]. split; [|done]. intros _. right. eauto.
    + rewrite (delete_event_no_day c i e) by done. simpl.
      split; [auto|]. split; [done|].
      intros [[=]|(e' & dy0 & [= <-] & Hd' & _)]. congruence.
  - rewrite delete_event_absent by done. simpl. split; [auto|]. split; auto.
Qed.

(** ** update_event *)

Section UpdateCases.
Context (fuel : nat) (today : date) (fresh : string).
Implicit Types (c : Calendar) (e : Event) (dy : Day).

Lemma update_event_absent c i t d date_' s en :
  events c !! i = None ->
  Calendar.update_event fuel today fresh i t d date_' s en c
  = (Raise EventNotFound, c).
Proof.
  intros Hi. unfold Calendar.update_event, bind, events_get, lift_outcome.
  by rewrite Hi.
Qed.

Lemma update_event_new_date c i e t d date_' s en :
  events c !! i = Some e -> date_ e <> date_' ->
  Calendar.update_event fuel today fresh i t d date_' s en c
  = match Calendar.delete_event i c with
    | (Return _, c1) =>
        match Calendar.add_event fuel today fresh t d date_' s en c1 with
        | (Return _, c2) => (Return tt, c2)
        | (Raise err, c2) => (Raise err, c2)
        | (OutOfFuel, c2) => (OutOfFuel, c2)
        end
    | (Raise err, c1) => (Raise err, c1)
    | (OutOfFuel, c1) => (OutOfFuel, c1)
    end.
Proof.
  intros Hi Hne. unfold Calendar.update_event, events_get.
  unfold bind at 1. rewrite Hi, bool_decide_true by done.
  unfold bind at 1. destruct (Calendar.delete_event i c) as [[| |] c1]; [|done..].
  unfold bind at 1.
  by destruct (Calendar.add_event fuel today fresh t d date_' s en c1) as [[| |] c2].
Qed.

Lemma update_event_same_date c i e t d s en dy :
  events c !! i = Some e -> days c !! date_ e = Some dy ->
  Calendar.update_event fuel today fresh i t d (date_ e) s en c
  = ((Day.update_event dy i s en).1,
     {| days := <[date_ e := (Day.update_event dy i s en).2]> (days c);
        events := <[i := set_title_description e t d]> (events c) |}).
Proof.
  intros Hi Hd.
  unfold Calendar.update_event, bind, events_get, on_event, on_day,
    set_events, set_days.
  rewrite Hi, bool_decide_false by (by intros []). simpl. rewrite Hi. simpl.
  rewrite Hd. by destruct (Day.update_event dy i s en) as [[| |] dy'].
Qed.

End UpdateCases.

(** C3 (amended). [update_event(X, ...)] to another date that is before the
    current date first deletes the event and then fails: it raises DateInPast
    (EventNotFound instead, when the event's date has a Day and none of its
    slots is booked to X), and leaves the calendar as [delete_event(X)]
    leaves it, with X out of the event index and of the slots of its Day. *)
Theorem update_event_past_date (fuel : nat) (today : date) (fresh : string)
    (c : Calendar) (X : string) (e : Event) (t d : string) (date_' : date)
    (s en : time) :
  events c !! X = Some e ->
  date_ e <> date_' ->
  date_lt date_' today = true ->
  exists r c',
    Calendar.update_event fuel today fresh X t d date_' s en c = (r, c')
    /\ c' = (Calendar.delete_event X c).2
    /\ events c' = delete X (events c)
    /\ (forall dy, days c !! date_ e = Some dy ->
        exists dy', days c' !! date_ e = Some dy'
                    /\ forall k, ~ booked_to (slots dy') k X)
    /\ ((days c !! date_ e = None
         \/ exists dy k, days c !! date_ e = Some dy /\ booked_to (slots dy) k X)
        /\ r = Raise DateInPast
        \/ (exists dy, days c !! date_ e = Some dy
                       /\ forall k, ~ booked_to (slots dy) k X)
           /\ r = Raise EventNotFound).
Proof.
  intros Hi Hne Hlt. rewrite (update_event_new_date _ _ _ c X e) by done.
  destruct (days c !! date_ e) as [dy|] eqn:Hd.
  - rewrite (delete_event_day c X e dy) by done.
    destruct (Day_delete_event_spec dy X) as (r & dy' & Hdel & Hr & _ & _ & Hget).
    rewrite Hdel. simpl.
    assert (forall k, ~ booked_to (slots dy') k X) as Hfree.
    { intros k. unfold booked_to. rewrite Hget. by case_decide. }
    destruct Hr as [[[k Hk] ->]|[Hk ->]].
    + rewrite add_event_past by done. eexists _, _. split; [done|].
      split; [done|]. split; [done|]. split.
      * intros ? [= <-]. exists dy'. simpl. by rewrite lookup_insert_eq.
      * left. split; [|done]. right. eauto.
    + eexists _, _. split; [done|]. split; [done|]. split; [done|]. split.
      * intros ? [= <-]. exists dy'. simpl. by rewrite lookup_insert_eq.
      * right. split; [|done]. eauto.
  - rewrite (delete_event_no_day c X e) by done.
    rewrite add_event_past by done. eexists _, _. split; [done|].
    split; [done|]. split; [done|]. split; [done|]. left. auto.
Qed.

(** C9. A same-date [update_event] that shrinks the range booked to the event
    from [start, end1) to [start, end2), end2 < end1, leaves the slots in
    [end2, end1) free; when the event held a slot the update returns and the
    slots in [start, end2) are booked to it. *)
Theorem update_event_shrink (fuel : nat) (today : date) (fresh : string)
    (c : Calendar) (X : string) (e : Event) (t d : string)
    (s end1 end2 : time) (dy : Day) :
  events c !! X = Some e ->
  days c !! date_ e = Some dy ->
  NoDup (slots dy).*1 ->
  (forall k, k ∈ (slots dy).*1 -> in_range s end1 k = true ->
             booked_to (slots dy) k X) ->
  time_le s end2 = true ->
  time_lt end2 end1 = true ->
  exists r c' dy',
    Calendar.update_event fuel today fresh X t d (date_ e) s end2 c = (r, c')
    /\ days c' !! date_ e = Some dy'
    /\ (slots dy').*1 = (slots dy).*1
    /\ (forall k, k ∈ (slots dy).*1 -> in_range end2 end1 k = true ->
                  free (slots dy') k)
    /\ ((exists k, booked_to (slots dy) k X) ->
        r = Return tt
        /\ forall k, k ∈ (slots dy).*1 -> in_range s end2 k = true ->
                     booked_to (slots dy') k X).
Proof.
  intros Hi Hd Hnd Hbooked Hle Hlt.
  rewrite (update_event_same_date _ _ _ c X e t d s end2 dy) by done.
  eexists _, _, _. split; [done|]. simpl. rewrite lookup_insert_eq.
  split; [done|]. unfold Day.update_event.
  destruct (Day_delete_event_spec dy X) as (r & dy1 & Hdel & Hr & _ & Hkeys & Hget).
  rewrite Hdel. destruct Hr as [[[k0 Hk0] ->]|[Hno ->]].
  - unfold Day.add_event.
    destruct (add_event_loop_keys X s end2 (slots dy1).*1 (slots dy1)) as [Hk' _];
      [done|].
    destruct (add_event_loop_free X s end2 (slots dy1).*1 (slots dy1))
      as [Hret Hget']; [by rewrite Hkeys|..].
    { intros k Hk Hkr. unfold free. rewrite Hget, decide_True; [done|].
      apply Hbooked; [by rewrite <- Hkeys|by eapply in_range_shrink]. }
    destruct (Day.add_event_loop X s end2 (slots dy1).*1 (slots dy1)) as [r' s'].
    simpl in *. subst r'. split; [by rewrite Hk'|]. split.
    + intros k Hk Hkr. destruct (in_range_tail s end2 end1 k) as [Hr1 Hr2]; [done..|].
      unfold free. rewrite Hget', decide_False by (rewrite Hr2; by intros [_ ?]).
      rewrite Hget, decide_True; [done|]. by apply Hbooked.
    + intros _. split; [done|]. intros k Hk Hkr. unfold booked_to.
      rewrite Hget', decide_True; [done|]. by rewrite Hkeys.
  - simpl. split; [done|]. split.
    + intros k Hk Hkr. destruct (in_range_tail s end2 end1 k) as [Hr1 _]; [done..|].
      destruct (Hno k). by apply Hbooked.
    + intros [k Hk]. by destruct (Hno k).
Qed.

(** ** Two overlapping bookings *)

(** A successful [add_event] found the Day of the date and booked it. *)
Lemma add_event_returns fuel today fresh c t d date_ s en i c' :
  Calendar.add_event fuel today fresh t d date_ s en c = (Return i, c') ->
  exists dy,
    days c !! date_ = Some dy
    /\ i = fresh
    /\ (Day.add_event dy fresh s en).1 = Return tt
    /\ days c' = <[date_ := (Day.add_event dy fresh s en).2]> (days c)
    /\ events c' = <[fresh := Event.init t d date_ s en fresh]> (events c).
Proof.
  intros Hadd. destruct (date_lt date_ today) eqn:Hlt.
  { by rewrite add_event_past in Hadd. }
  destruct (days c !! date_) as [dy|] eqn:Hd.
  - exists dy. rewrite (add_event_day _ _ _ _ _ _ _ _ _ dy) in Hadd by done.
    destruct (Day.add_event dy fresh s en) as [[[]| |] dy']; [|done..].
    by injection Hadd as <- <-.
  - by destruct (add_event_no_day fuel today fresh c t d date_ s en)
      as [Heq|Heq]; [done..| |]; rewrite Heq in Hadd.
Qed.

(** C4 (amended). After a first [add_event] has booked a date, a second one
    on that date whose range holds a slot of the first fails with
    SlotNotAvailable and indexes no event, but it is not undone: the free
    slots of its range that come before the first taken one stay booked to
    the second id. Nothing else changes. *)
Theorem second_add_event_conflict (fuel : nat) (today : date)
    (id1 id2 : string) (c0 c1 : Calendar) (t1 d1 t2 d2 : string)
    (date_ : date) (s1 e1 s2 e2 : time) (dy1 : Day) (k : time) :
  (forall dy, days c0 !! date_ = Some dy -> NoDup (slots dy).*1) ->
  Calendar.add_event fuel today id1 t1 d1 date_ s1 e1 c0 = (Return id1, c1) ->
  days c1 !! date_ = Some dy1 ->
  booked_to (slots dy1) k id1 ->
  in_range s2 e2 k = true ->
  exists pre slot v post,
    slots dy1 = pre ++ (slot, Some v) :: post
    /\ in_range s2 e2 slot = true
    /\ Forall (fun kv => in_range s2 e2 kv.1 = true -> kv.2 = None) pre
    /\ Calendar.add_event fuel today id2 t2 d2 date_ s2 e2 c1
       = (Raise SlotNotAvailable,
          set_days c1
            (<[date_ := set_slots dy1
                          ((book id2 s2 e2 <$> pre) ++ (slot, Some v) :: post)]>
               (days c1))).
Proof.
  intros Hnd0 Hadd Hd1 Hk Hkr.
  assert (date_lt date_ today = false) as Hlt.
  { destruct (date_lt date_ today) eqn:Hlt; [|done].
    by rewrite add_event_past in Hadd. }
  destruct (add_event_returns _ _ _ _ _ _ _ _ _ _ _ Hadd)
    as (dy0 & Hd0 & _ & _ & Hdays & _).
  assert (NoDup (slots dy1).*1) as Hnd.
  { rewrite Hdays, lookup_insert_eq in Hd1. injection Hd1 as <-.
    destruct (Day_add_event_outcome dy0 id1 s1 e1) as [-> _]. eauto. }
  destruct (first_conflict s2 e2 (slots dy1) k id1)
    as (pre & slot & v & post & Hs & Hr & Hpre); [|done|].
  { by apply dict_get_elem_of. }
  exists pre, slot, v, post. split; [done|]. split; [done|]. split; [done|].
  rewrite (add_event_day _ _ _ _ _ _ _ _ _ dy1) by done.
  rewrite Hs in Hnd.
  pose proof (add_event_loop_conflict id2 s2 e2 [] pre slot v post Hnd Hr Hpre)
    as Hc.
  unfold Day.add_event. rewrite Hs at 1 2. rewrite fmap_app, fmap_cons.
  cbn [app fst] in *. by rewrite Hc.
Qed.

(** ** The event index along the public operations *)

Section KeepsTimes.
Context (N : Event -> Prop).
Implicit Types (es : gmap string Event).

Lemma keeps_times_refl es : keeps_times es es N.
Proof. intros i e' Hi. left. eauto. Qed.

Lemma keeps_times_delete es i : keeps_times es (delete i es) N.
Proof.
  intros j e' Hj. left. exists e'.
  apply lookup_delete_Some in Hj as [_ Hj]. eauto.
Qed.

Lemma keeps_times_insert_new es i e : N e -> keeps_times es (<[i := e]> es) N.
Proof.
  intros He j e' Hj. apply lookup_insert_Some in Hj as [[_ <-]|[_ Hj]]; eauto.
Qed.

Lemma keeps_times_insert_same es i e0 e :
  es !! i = Some e0 -> start_at e = start_at e0 -> end_at e = end_at e0 ->
  keeps_times es (<[i := e]> es) N.
Proof.
  intros Hi Hs He j e' Hj.
  apply lookup_insert_Some in Hj as [[<- <-]|[_ Hj]]; left; eauto.
Qed.

Lemma keeps_times_delete_insert es i j e :
  N e -> keeps_times es (<[j := e]> (delete i es)) N.
Proof.
  intros He k e' Hk. apply lookup_insert_Some in Hk as [[_ <-]|[_ Hk]]; [auto|].
  by apply (keeps_times_delete es i).
Qed.

End KeepsTimes.

Lemma bind_ret_state {A} (m : M A) (c : Calendar) :
  (bind m (fun _ => ret tt) c).2 = (m c).2.
Proof. unfold bind, ret. by destruct (m c) as [[| |] c']. Qed.

Section CallEvents.
Context (fuel : nat) (today : date) (fresh : string).
Implicit Types (c : Calendar).

Lemma add_event_events c t d date_ s en :
  events (Calendar.add_event fuel today fresh t d date_ s en c).2 = events c
  \/ events (Calendar.add_event fuel today fresh t d date_ s en c).2
     = <[fresh := Event.init t d date_ s en fresh]> (events c).
Proof.
  destruct (date_lt date_ today) eqn:Hlt.
  { rewrite add_event_past by done. auto. }
  destruct (days c !! date_) as [dy|] eqn:Hd.
  - rewrite (add_event_day _ _ _ _ _ _ _ _ _ dy) by done.
    destruct (Day.add_event dy fresh s en) as [[| |] dy']; simpl; auto.
  - destruct (add_event_no_day fuel today fresh c t d date_ s en)
      as [-> | ->]; auto.
Qed.

Lemma delete_event_events c i :
  events (Calendar.delete_event i c).2 = delete i (events c).
Proof.
  destruct (events c !! i) as [e|] eqn:Hi.
  - destruct (days c !! date_ e) as [dy|] eqn:Hd.
    + by rewrite (delete_event_day c i e dy).
    + by rewrite (delete_event_no_day c i e).
  - rewrite delete_event_absent by done. simpl. by rewrite delete_id.
Qed.

Lemma update_event_events c i t d date_' s en :
  keeps_times (events c)
    (events (Calendar.update_event fuel today fresh i t d date_' s en c).2)
    (times_of (UpdateEvent i t d date_' s en)).
Proof.
  destruct (events c !! i) as [e|] eqn:Hi.
  - destruct (decide (date_ e = date_')) as [<-|Hne].
    + destruct (days c !! date_ e) as [dy|] eqn:Hd.
      * rewrite (update_event_same_date _ _ _ c i e t d s en dy) by done.
        by apply (keeps_times_insert_same _ _ i e).
      * unfold Calendar.update_event, bind, events_get, on_event, on_day,
          set_events, set_days.
        rewrite Hi, bool_decide_false by (by intros []). simpl. rewrite Hi.
        simpl. rewrite Hd. simpl.
        by apply (keeps_times_insert_same _ _ i e).
    + rewrite (update_event_new_date _ _ _ c i e) by done.
      pose proof (delete_event_events c i) as Hdel.
      destruct (Calendar.delete_event i c) as [[| |] c1]; simpl in Hdel;
        [|simpl; rewrite Hdel; apply keeps_times_delete..].
      destruct (add_event_events c1 t d date_' s en) as [Hadd|Hadd];
        destruct (Calendar.add_event fuel today fresh t d date_' s en c1)
          as [[| |] c2]; simpl in *; rewrite Hadd, Hdel;
        (apply keeps_times_delete || by apply keeps_times_delete_insert).
  - rewrite update_event_absent by done. apply keeps_times_refl.
Qed.

(** What a call does to the times of the indexed events. *)
Lemma call_event_times r c :
  keeps_times (events c) (events (call fuel today fresh r c).2) (times_of r).
Proof.
  destruct r as [t d date_ s en|i dt ty|date_|i t d date_ s en|i|s en|i n|i];
    unfold call; rewrite ?bind_ret_state.
  - destruct (add_event_events c t d date_ s en) as [-> | ->].
    + apply keeps_times_refl.
    + by apply keeps_times_insert_new.
  - unfold Calendar.add_reminder, bind, events_get, on_event, lift_outcome.
    destruct (events c !! i) as [e|] eqn:Hi; simpl; [|apply keeps_times_refl].
    rewrite Hi. simpl. by apply (keeps_times_insert_same _ _ i e).
  - unfold Calendar.find_available_slots, bind, days_get, ret.
    destruct (days c !! date_); apply keeps_times_refl.
  - apply update_event_events.
  - rewrite delete_event_events. apply keeps_times_delete.
  - apply keeps_times_refl.
  - unfold Calendar.delete_reminder, bind, events_get, on_event, lift_outcome.
    destruct (events c !! i) as [e|] eqn:Hi; simpl; [|apply keeps_times_refl].
    rewrite Hi. unfold Event.delete_reminder.
    destruct (_ && _); simpl; by apply (keeps_times_insert_same _ _ i e).
  - unfold Calendar.list_reminders, bind, events_get, ret, lift_outcome.
    destruct (events c !! i); apply keeps_times_refl.
Qed.

End CallEvents.

(** X22. The operations keep the invariant start < end as far as the callers
    do: every indexed event has start < end in every calendar reached from
    one where that holds by calls whose [add_event] and [update_event]
    requests have start < end. *)
Theorem times_ordered_preserved (c0 c : Calendar) :
  times_ordered c0 ->
  reachable_from ordered_request c0 c ->
  times_ordered c.
Proof.
  intros H0. induction 1 as [|c fuel today fresh r o c' _ IH Hr Hcall _]; [done|].
  intros i e' Hi.
  pose proof (call_event_times fuel today fresh r c i e') as Hk.
  rewrite Hcall in Hk. destruct (Hk Hi) as [(e & He & -> & ->)|Hnew].
  - by apply (IH i e).
  - destruct r; simpl in *; try done; by destruct Hnew as [-> ->].
Qed.

(** With [Day.__init__] never returning, a calendar that starts without Days
    never gets one, nor an event: every call that comes back leaves
    [Calendar()] as it is. *)
Lemma reachable_from_init P c :
  reachable_from P Calendar.init c -> c = Calendar.init.
Proof.
  induction 1 as [|c fuel today fresh r o c' _ -> _ Hcall _]; [done|].
  apply (f_equal snd) in Hcall. simpl in Hcall. subst c'.
  destruct r as [t d date_ s en|i dt ty|date_|i t d date_ s en|i|s en|i n|i];
    unfold call; rewrite ?bind_ret_state.
  - destruct (date_lt date_ today) eqn:Hlt.
    + by rewrite add_event_past.
    + by destruct (add_event_no_day fuel today fresh Calendar.init
                     t d date_ s en) as [-> | ->].
  - done.
  - done.
  - by rewrite update_event_absent.
  - by rewrite delete_event_absent.
  - done.
  - done.
  - done.
Qed.

(** ** The properties on the sample calendars *)

Lemma grid_NoDup : NoDup Day_grid.*1.
Proof. apply (bool_decide_unpack _). by vm_compute. Qed.

Lemma day_standup_NoDup : NoDup (slots day_standup).*1.
Proof. apply (bool_decide_unpack _). by vm_compute. Qed.

Lemma day_standup_booked k :
  k ∈ (slots day_standup).*1 -> in_range (at_ 9 0) (at_ 10 0) k = true ->
  booked_to (slots day_standup) k "a".
Proof.
  assert (Forall (fun k => in_range (at_ 9 0) (at_ 10 0) k = true ->
                           dict_get (slots day_standup) k = Some (Some "a"))
            (slots day_standup).*1) as Hall
    by (apply (bool_decide_unpack _); by vm_compute).
  intros Hk. by apply (proj1 (Forall_forall _ _) Hall).
Qed.

Lemma cal_standup_added :
  Calendar.add_event 0 jan10 "a" "Standup" "daily sync" jan10
    (at_ 9 0) (at_ 10 0) cal_free_day
  = (Return "a", cal_standup).
Proof. by vm_compute. Qed.

Lemma cal_standup_event : events cal_standup !! "a" = Some standup.
Proof. by vm_compute. Qed.

Lemma cal_standup_day : days cal_standup !! jan10 = Some day_standup.
Proof. by vm_compute. Qed.

(** C3, on the sample: moving the Standup to the day before today. *)
Lemma update_event_past_date_witness :
  exists r c',
    Calendar.update_event 0 jan10 "b" "a" "Standup" "daily sync" jan9
      (at_ 9 0) (at_ 10 0) cal_standup = (r, c')
    /\ c' = (Calendar.delete_event "a" cal_standup).2
    /\ events c' = delete "a" (events cal_standup)
    /\ (forall dy, days cal_standup !! date_ standup = Some dy ->
        exists dy', days c' !! date_ standup = Some dy'
                    /\ forall k, ~ booked_to (slots dy') k "a")
    /\ ((days cal_standup !! date_ standup = None
         \/ exists dy k, days cal_standup !! date_ standup = Some dy
                         /\ booked_to (slots dy) k "a")
        /\ r = Raise DateInPast
        \/ (exists dy, days cal_standup !! date_ standup = Some dy
                       /\ forall k, ~ booked_to (slots dy) k "a")
           /\ r = Raise EventNotFound).
Proof.
  apply (update_event_past_date 0 jan10 "b" cal_standup "a" standup
           "Standup" "daily sync" jan9 (at_ 9 0) (at_ 10 0)).
  - vm_compute. reflexivity.
  - vm_compute. discriminate.
  - vm_compute. reflexivity.
Defined.

(** C3 as stated fails: the update raises DateInPast, and the event is gone
    from the index and from its slots. *)
Lemma update_event_past_date_not_atomic :
  events cal_standup !! "a" = Some standup
  /\ booked_to (slots day_standup) (at_ 9 0) "a"
  /\ date_lt jan9 jan10 = true
  /\ exists c' dy',
       Calendar.update_event 0 jan10 "b" "a" "Standup" "daily sync" jan9
         (at_ 9 0) (at_ 10 0) cal_standup = (Raise DateInPast, c')
       /\ c' <> cal_standup
       /\ events c' !! "a" = None
       /\ days c' !! jan10 = Some dy'
       /\ free (slots dy') (at_ 9 0).
Proof.
  split; [by vm_compute|]. split; [by vm_compute|]. split; [by vm_compute|].
  eexists _, _. split; [by vm_compute|]. split; [|by vm_compute].
  intros Heq. apply (f_equal (fun c => events c !! "a")) in Heq.
  by vm_compute in Heq.
Qed.

(** C4, on the sample: 08:30-09:30 asked for after 09:00-10:00 is booked. *)
Lemma second_add_event_conflict_witness :
  exists pre slot v post,
    slots day_standup = pre ++ (slot, Some v) :: post
    /\ in_range (at_ 8 30) (at_ 9 30) slot = true
    /\ Forall (fun kv => in_range (at_ 8 30) (at_ 9 30) kv.1 = true
                         -> kv.2 = None) pre
    /\ Calendar.add_event 0 jan10 "b" "Overlap" "" jan10
         (at_ 8 30) (at_ 9 30) cal_standup
       = (Raise SlotNotAvailable,
          set_days cal_standup
            (<[jan10 := set_slots day_standup
                          ((book "b" (at_ 8 30) (at_ 9 30) <$> pre)
                           ++ (slot, Some v) :: post)]>
               (days cal_standup))).
Proof.
  apply (second_add_event_conflict 0 jan10 "a" "b" cal_free_day cal_standup
           "Standup" "daily sync" "Overlap" "" jan10
           (at_ 9 0) (at_ 10 0) (at_ 8 30) (at_ 9 30) day_standup (at_ 9 0)).
  - intros dy Hdy. vm_compute in Hdy. injection Hdy as <-. apply grid_NoDup.
  - vm_compute. reflexivity.
  - vm_compute. reflexivity.
  - vm_compute. reflexivity.
  - vm_compute. reflexivity.
Defined.

(** C4 as stated fails: the second call fails with SlotNotAvailable, and
    08:30 stays booked to its id; the free slots are no longer the same. *)
Lemma second_add_event_partial_booking :
  Calendar.add_event 0 jan10 "a" "Standup" "daily sync" jan10
    (at_ 9 0) (at_ 10 0) cal_free_day = (Return "a", cal_standup)
  /\ exists c2 dy2,
       Calendar.add_event 0 jan10 "b" "Overlap" "" jan10
         (at_ 8 30) (at_ 9 30) cal_standup = (Raise SlotNotAvailable, c2)
       /\ days c2 !! jan10 = Some dy2
       /\ booked_to (slots dy2) (at_ 8 30) "b"
       /\ (Calendar.find_available_slots jan10 c2).1
          <> (Calendar.find_available_slots jan10 cal_standup).1
       /\ at_ 8 30 ∈ (filter (fun kv => kv.2 = None) (slots day_standup)).*1
       /\ at_ 8 30 ∉ (filter (fun kv => kv.2 = None) (slots dy2)).*1.
Proof.
  split; [by vm_compute|]. eexists _, _. split; [by vm_compute|].
  split; [by vm_compute|]. split; [by vm_compute|]. split; [|split].
  - intros Heq.
    apply (f_equal (fun o => match o with Return l => length l | _ => O end)) in Heq.
    by vm_compute in Heq.
  - apply (bool_decide_unpack _). by vm_compute.
  - apply (bool_decide_unpack _). by vm_compute.
Qed.

(** On a calendar that holds a Day as data: the id of an event that books no
    slot is in the index, and [delete_event] raises EventNotFound for it. *)
Lemma delete_event_indexed_not_found :
  Calendar.add_event 0 jan10 "z" "Empty" "" jan10
    (at_ 10 0) (at_ 10 0) cal_free_day = (Return "z", cal_empty_range)
  /\ events cal_empty_range !! "z"
     = Some (Event.init "Empty" "" jan10 (at_ 10 0) (at_ 10 0) "z")
  /\ (Calendar.delete_event "z" cal_empty_range).1 = Raise EventNotFound.
Proof. split; [by vm_compute|]. split; by vm_compute. Qed.

(** X22, on the sample: one ordered booking. *)
Lemma times_ordered_preserved_witness : times_ordered cal_standup.
Proof.
  apply (times_ordered_preserved cal_free_day cal_standup).
  - intros i e Hi. vm_compute in Hi. discriminate.
  - apply (reachable_call _ _ cal_free_day 0%nat jan10 "a"
             (AddEvent "Standup" "daily sync" jan10 (at_ 9 0) (at_ 10 0))
             (Return tt)).
    + apply reachable_start.
    + vm_compute. reflexivity.
    + vm_compute. reflexivity.
    + discriminate.
Defined.

(** On a calendar that holds a Day as data: [add_event] takes 10:00-09:00
    and indexes the event. *)
Lemma add_event_unordered_times :
  events cal_free_day = ∅
  /\ Calendar.add_event 0 jan10 "y" "Backwards" "" jan10
       (at_ 10 0) (at_ 9 0) cal_free_day = (Return "y", cal_backwards)
  /\ reachable_from (fun _ => True) cal_free_day cal_backwards
  /\ exists e, events cal_backwards !! "y" = Some e
               /\ time_lt (start_at e) (end_at e) = false.
Proof.
  split; [done|]. split; [by vm_compute|]. split.
  - apply (reachable_call _ _ cal_free_day 0%nat jan10 "y"
             (AddEvent "Backwards" "" jan10 (at_ 10 0) (at_ 9 0)) (Return tt));
      [apply reachable_start|done|by vm_compute|done].
  - eexists. split; by vm_compute.
Qed.

(** C9, on the sample: 09:00-10:00 shrunk to 09:00-09:30. *)
Lemma update_event_shrink_witness :
  exists r c' dy',
    Calendar.update_event 0 jan10 "b" "a" "Standup" "daily sync" (date_ standup)
      (at_ 9 0) (at_ 9 30) cal_standup = (r, c')
    /\ days c' !! date_ standup = Some dy'
    /\ (slots dy').*1 = (slots day_standup).*1
    /\ (forall k, k ∈ (slots day_standup).*1 ->
                  in_range (at_ 9 30) (at_ 10 0) k = true -> free (slots dy') k)
    /\ ((exists k, booked_to (slots day_standup) k "a") ->
        r = Return tt
        /\ forall k, k ∈ (slots day_standup).*1 ->
                     in_range (at_ 9 0) (at_ 9 30) k = true ->
                     booked_to (slots dy') k "a").
Proof.
  apply (update_event_shrink 0 jan10 "b" cal_standup "a" standup
           "Standup" "daily sync" (at_ 9 0) (at_ 10 0) (at_ 9 30) day_standup).
  - vm_compute. reflexivity.
  - vm_compute. reflexivity.
  - apply day_standup_NoDup.
  - apply day_standup_booked.
  - vm_compute. reflexivity.
  - vm_compute. reflexivity.
Defined.

(** The sample of C9 evaluated: the update returns, 09:00 and 09:15 stay
    booked, 09:30 and 09:45 are free. *)
Lemma update_event_shrink_sample :
  exists c' dy',
    Calendar.update_event 0 jan10 "b" "a" "Standup" "daily sync" jan10
      (at_ 9 0) (at_ 9 30) cal_standup = (Return tt, c')
    /\ days c' !! jan10 = Some dy'
    /\ booked_to (slots dy') (at_ 9 0) "a"
    /\ booked_to (slots dy') (at_ 9 15) "a"
    /\ free (slots dy') (at_ 9 30)
    /\ free (slots dy') (at_ 9 45).
Proof. eexists _, _. repeat split; by vm_compute. Qed.

(** The sample of C2: three dates asked for, two int keys given. *)
Lemma find_events_sample :
  (Calendar.find_events jan10 jan12 cal_standup).1
  = Return [(0, [standup]); (1, [standup])]
  /\ (Calendar.find_events jan10 jan10 cal_standup).1 = Return [].
Proof. split; by vm_compute. Qed.

(** * Further properties of the code *)

(** ** Reminders of an event *)

(** X1. [Event.delete_reminder] fails with ReminderNotFound exactly when the
    index is negative or not below the count, and then leaves the event as
    it is (a negative index does not count from the end); otherwise it
    returns and removes the reminder at that position and no other. *)
Theorem delete_reminder_bounds (e : Event) (i : Z) :
  ((Event.delete_reminder e i).1 = Raise ReminderNotFound
   <-> i < 0 \/ Z.of_nat (length (reminders e)) <= i)
  /\ ((Event.delete_reminder e i).1 = Raise ReminderNotFound ->
      (Event.delete_reminder e i).2 = e)
  /\ ((Event.delete_reminder e i).1 <> Raise ReminderNotFound ->
      (Event.delete_reminder e i).1 = Return tt
      /\ reminders (Event.delete_reminder e i).2
         = take (Z.to_nat i) (reminders e) ++ drop (S (Z.to_nat i)) (reminders e)
      /\ S (length (reminders (Event.delete_reminder e i).2))
         = length (reminders e)
      /\ (title (Event.delete_reminder e i).2, description (Event.delete_reminder e i).2,
          date_ (Event.delete_reminder e i).2, start_at (Event.delete_reminder e i).2,
          end_at (Event.delete_reminder e i).2, id_ (Event.delete_reminder e i).2)
         = (title e, description e, date_ e, start_at e, end_at e, id_ e)).
Proof.
  unfold Event.delete_reminder.
  destruct (Z.leb_spec 0 i) as [H0|H0];
    destruct (Z.ltb_spec i (Z.of_nat (length (reminders e)))) as [H1|H1]; simpl.
  - split; [split; [done|lia]|]. split; [done|]. intros _. split; [done|].
    split; [apply delete_take_drop|]. split; [|done].
    rewrite length_delete; [|apply lookup_lt_is_Some_2; lia].
    assert (0 < length (reminders e))%nat by lia. lia.
  - split; [split; [lia|done]|]. done.
  - split; [split; [lia|done]|]. done.
  - split; [split; [lia|done]|]. done.
Qed.

(** ** Reminders through the calendar *)

Lemma set_days_id c : set_days c (days c) = c.
Proof. by destruct c. Qed.

(** X2. [Calendar.add_reminder] for an indexed id returns, adds the reminder
    at the end of that event's list and touches nothing else;
    [list_reminders] then gives the former reminders followed by the new
    one. *)
Theorem add_reminder_then_list (c : Calendar) (i : string) (e : Event)
    (dt : datetime) (ty : string) :
  events c !! i = Some e ->
  exists c',
    Calendar.add_reminder i dt ty c = (Return tt, c')
    /\ days c' = days c
    /\ (forall j, j <> i -> events c' !! j = events c !! j)
    /\ Calendar.list_reminders i c'
       = (Return (reminders e ++ [{| date_time := dt; type_ := ty |}]), c').
Proof.
  intros Hi. eexists. split.
  - unfold Calendar.add_reminder, bind, events_get, on_event. rewrite Hi. simpl.
    by rewrite Hi.
  - split; [done|]. split.
    + intros j Hj. simpl. by rewrite lookup_insert_ne.
    + unfold Calendar.list_reminders, bind, events_get, ret. simpl.
      by rewrite lookup_insert_eq.
Qed.

Lemma add_reminder_then_list_witness :
  exists c',
    Calendar.add_reminder "a" (DateTime jan10 (at_ 8 45)) EMAIL cal_standup
    = (Return tt, c')
    /\ days c' = days cal_standup
    /\ (forall j, j <> "a" -> events c' !! j = events cal_standup !! j)
    /\ Calendar.list_reminders "a" c'
       = (Return (reminders standup
                  ++ [{| date_time := DateTime jan10 (at_ 8 45); type_ := EMAIL |}]),
          c').
Proof.
  apply (add_reminder_then_list cal_standup "a" standup). vm_compute. reflexivity.
Defined.

(** X3. With an id that is not in the event index, [add_reminder],
    [delete_reminder], [list_reminders], [update_event] and [delete_event]
    all raise EventNotFound and leave the calendar as it is. *)
Theorem unknown_id_not_found (fuel : nat) (today : date) (fresh : string)
    (c : Calendar) (i : string) (dt : datetime) (ty : string) (n : Z)
    (t d : string) (date_' : date) (s en : time) :
  events c !! i = None ->
  Calendar.add_reminder i dt ty c = (Raise EventNotFound, c)
  /\ Calendar.delete_reminder i n c = (Raise EventNotFound, c)
  /\ Calendar.list_reminders i c = (Raise EventNotFound, c)
  /\ Calendar.update_event fuel today fresh i t d date_' s en c
     = (Raise EventNotFound, c)
  /\ Calendar.delete_event i c = (Raise EventNotFound, c).
Proof.
  intros Hi. repeat split.
  - unfold Calendar.add_reminder, bind, events_get, lift_outcome. by rewrite Hi.
  - unfold Calendar.delete_reminder, bind, events_get, lift_outcome. by rewrite Hi.
  - unfold Calendar.list_reminders, bind, events_get, lift_outcome. by rewrite Hi.
  - by apply update_event_absent.
  - by apply delete_event_absent.
Qed.

Lemma unknown_id_not_found_witness :
  Calendar.add_reminder "b" (DateTime jan10 (at_ 8 45)) EMAIL cal_standup
  = (Raise EventNotFound, cal_standup)
  /\ Calendar.delete_reminder "b" 0 cal_standup = (Raise EventNotFound, cal_standup)
  /\ Calendar.list_reminders "b" cal_standup = (Raise EventNotFound, cal_standup)
  /\ Calendar.update_event 0 jan10 "c" "b" "Standup" "daily sync" jan12
       (at_ 9 0) (at_ 10 0) cal_standup
     = (Raise EventNotFound, cal_standup)
  /\ Calendar.delete_event "b" cal_standup = (Raise EventNotFound, cal_standup).
Proof.
  apply (unknown_id_not_found 0 jan10 "c" cal_standup "b"). vm_compute. reflexivity.
Defined.

(** X4. For an indexed id, [Calendar.delete_reminder] raises ReminderNotFound
    exactly when the index is outside [0, count), and then the calendar is
    as before; inside, it returns and only that event's reminders change. *)
Theorem calendar_delete_reminder_bounds (c : Calendar) (i : string) (e : Event)
    (n : Z) :
  events c !! i = Some e ->
  ((Calendar.delete_reminder i n c).1 = Raise ReminderNotFound
   <-> n < 0 \/ Z.of_nat (length (reminders e)) <= n)
  /\ (n < 0 \/ Z.of_nat (length (reminders e)) <= n ->
      Calendar.delete_reminder i n c = (Raise ReminderNotFound, c))
  /\ (0 <= n < Z.of_nat (length (reminders e)) ->
      Calendar.delete_reminder i n c
      = (Return tt,
         set_events c
           (<[i := set_reminders e (delete (Z.to_nat n) (reminders e))]>
              (events c)))).
Proof.
  intros Hi.
  assert (Calendar.delete_reminder i n c
          = ((Event.delete_reminder e n).1,
             set_events c (<[i := (Event.delete_reminder e n).2]> (events c))))
    as Heq.
  { unfold Calendar.delete_reminder, bind, events_get, on_event. rewrite Hi.
    simpl. rewrite Hi. by destruct (Event.delete_reminder e n). }
  rewrite Heq. unfold Event.delete_reminder.
  destruct (Z.leb_spec 0 n) as [H0|H0];
    destruct (Z.ltb_spec n (Z.of_nat (length (reminders e)))) as [H1|H1]; simpl.
  - split; [split; [done|lia]|]. split; [lia|done].
  - rewrite insert_id, set_events_id by done.
    split; [split; [lia|done]|]. split; [done|lia].
  - rewrite insert_id, set_events_id by done.
    split; [split; [lia|done]|]. split; [done|lia].
  - rewrite insert_id, set_events_id by done.
    split; [split; [lia|done]|]. split; [done|lia].
Qed.

Lemma calendar_delete_reminder_bounds_witness :
  ((Calendar.delete_reminder "a" (-1) cal_standup).1 = Raise ReminderNotFound
   <-> -1 < 0 \/ Z.of_nat (length (reminders standup)) <= -1)
  /\ (-1 < 0 \/ Z.of_nat (length (reminders standup)) <= -1 ->
      Calendar.delete_reminder "a" (-1) cal_standup
      = (Raise ReminderNotFound, cal_standup))
  /\ (0 <= -1 < Z.of_nat (length (reminders standup)) ->
      Calendar.delete_reminder "a" (-1) cal_standup
      = (Return tt,
         set_events cal_standup
           (<[ "a" := set_reminders standup
                        (delete (Z.to_nat (-1)) (reminders standup))]>
              (events cal_standup)))).
Proof.
  apply (calendar_delete_reminder_bounds cal_standup "a" standup (-1)).
  vm_compute. reflexivity.
Defined.

(** X5. Through the calendar too, a reminder added to an indexed event and
    deleted by the index it got gives back the calendar as it was. *)
Theorem calendar_add_then_delete_reminder (c : Calendar) (i : string)
    (e : Event) (dt : datetime) (ty : string) :
  events c !! i = Some e ->
  exists c1,
    Calendar.add_reminder i dt ty c = (Return tt, c1)
    /\ c1 <> c
    /\ Calendar.delete_reminder i (Z.of_nat (length (reminders e))) c1
       = (Return tt, c).
Proof.
  intros Hi. eexists. split; [|split].
  - unfold Calendar.add_reminder, bind, events_get, on_event. rewrite Hi. simpl.
    by rewrite Hi.
  - intros Heq. apply (f_equal (fun c => length <$> (reminders <$> events c !! i)))
      in Heq. simpl in Heq. rewrite lookup_insert_eq, Hi in Heq. simpl in Heq.
    rewrite length_app in Heq. simpl in Heq. injection Heq. lia.
  - unfold Calendar.delete_reminder, bind, events_get, on_event. simpl.
    rewrite lookup_insert_eq. simpl. rewrite lookup_insert_eq.
    unfold Event.delete_reminder. simpl. rewrite length_app. simpl.
    rewrite (proj2 (Z.leb_le _ _)), (proj2 (Z.ltb_lt _ _)) by lia. simpl.
    rewrite Nat2Z.id, delete_last, insert_insert_eq.
    unfold set_events. simpl. destruct c as [ds es], e. simpl in *.
    by rewrite insert_id.
Qed.

Lemma calendar_add_then_delete_reminder_witness :
  exists c1,
    Calendar.add_reminder "a" (DateTime jan10 (at_ 8 45)) SYSTEM cal_standup
    = (Return tt, c1)
    /\ c1 <> cal_standup
    /\ Calendar.delete_reminder "a" (Z.of_nat (length (reminders standup))) c1
       = (Return tt, cal_standup).
Proof.
  apply (calendar_add_then_delete_reminder cal_standup "a" standup).
  vm_compute. reflexivity.
Defined.

(** ** Booking and freeing the slots of a Day *)

(** When the slots it targets are free, the loop of [Day.add_event] rewrites
    the entries of the range where they stand. *)
Lemma add_event_loop_books event_id start_at end_at done_ rest :
  NoDup (done_ ++ rest).*1 ->
  Forall (fun kv => in_range start_at end_at kv.1 = true -> kv.2 = None) rest ->
  Day.add_event_loop event_id start_at end_at rest.*1 (done_ ++ rest)
  = (Return tt, done_ ++ (book event_id start_at end_at <$> rest)).
Proof.
  revert done_. induction rest as [|[k x] rest IH]; intros done_ Hnd Hfree.
  - done.
  - apply Forall_cons in Hfree as [Hk Hfree].
    assert (k ∉ done_.*1) as Hkd.
    { rewrite fmap_app in Hnd. apply NoDup_app in Hnd as (_ & Hnd & _).
      intros Hin. apply (Hnd k Hin). apply list_elem_of_here. }
    rewrite !fmap_cons. cbn [Day.add_event_loop fst].
    specialize (IH (done_ ++ [(k, if in_range start_at end_at k
                                   then Some event_id else x)])).
    rewrite <- !(assoc_L (++)) in IH. cbn [app] in IH.
    unfold book at 1. cbn [fst].
    destruct (in_range start_at end_at k) eqn:Hkr.
    + simpl in Hk. rewrite (Hk Hkr), dict_get_middle by done.
      rewrite dict_set_middle by done. apply IH; [|done].
      revert Hnd. by rewrite !fmap_app, !fmap_cons.
    + by apply IH.
Qed.

(** The loop of [Day.delete_event] rewrites the entries that hold the id
    where they stand. *)
Lemma delete_event_loop_unbooks event_id done_ rest deleted :
  NoDup (done_ ++ rest).*1 ->
  (Day.delete_event_loop event_id rest.*1 (done_ ++ rest) deleted).1
  = done_ ++ (unbook event_id <$> rest).
Proof.
  revert done_ deleted. induction rest as [|[k x] rest IH];
    intros done_ deleted Hnd.
  - done.
  - assert (k ∉ done_.*1) as Hkd.
    { rewrite fmap_app in Hnd. apply NoDup_app in Hnd as (_ & Hnd & _).
      intros Hin. apply (Hnd k Hin). apply list_elem_of_here. }
    rewrite !fmap_cons. cbn [Day.delete_event_loop fst].
    rewrite dict_get_middle by done. unfold unbook at 1. cbn [fst snd].
    destruct (decide (Some x = Some (Some event_id))) as [[= ->]|Hx].
    + rewrite decide_True by done. rewrite dict_set_middle by done.
      specialize (IH (done_ ++ [(k, None)]) true).
      rewrite <- !(assoc_L (++)) in IH. cbn [app] in IH. apply IH.
      revert Hnd. by rewrite !fmap_app, !fmap_cons.
    + rewrite decide_False by congruence.
      specialize (IH (done_ ++ [(k, x)]) deleted).
      rewrite <- !(assoc_L (++)) in IH. cbn [app] in IH. by apply IH.
Qed.

(** With no slot booked to the id, the loop changes nothing. *)
Lemma delete_event_loop_none event_id keys s deleted :
  (forall k, dict_get s k <> Some (Some event_id)) ->
  Day.delete_event_loop event_id keys s deleted = (s, deleted).
Proof.
  intros Hno. induction keys as [|slot keys IH]; cbn [Day.delete_event_loop];
    [done|].
  by rewrite decide_False.
Qed.

(** A slot that is booked stays booked to the same id along the loop of
    [Day.add_event]. *)
Lemma add_event_loop_keeps event_id start_at end_at keys s k v :
  dict_get s k = Some (Some v) ->
  dict_get (Day.add_event_loop event_id start_at end_at keys s).2 k
  = Some (Some v).
Proof.
  revert s. induction keys as [|slot keys IH]; intros s Hk;
    cbn [Day.add_event_loop]; [done|].
  destruct (in_range start_at end_at slot); [|by apply IH].
  destruct (dict_get s slot) as [[w|]|] eqn:Hslot; [done| |done].
  apply IH. rewrite dict_get_set_ne; [done|]. intros ->. congruence.
Qed.

Lemma Day_add_event_free (self : Day) event_id start_at end_at :
  NoDup (slots self).*1 ->
  (forall k, k ∈ (slots self).*1 -> in_range start_at end_at k = true ->
             free (slots self) k) ->
  Day.add_event self event_id start_at end_at
  = (Return tt, set_slots self (book event_id start_at end_at <$> slots self)).
Proof.
  intros Hnd Hfree. unfold Day.add_event.
  pose proof (add_event_loop_books event_id start_at end_at [] (slots self) Hnd)
    as Hb. cbn [app] in Hb. rewrite Hb; [done|].
  apply Forall_forall. intros [k x] Hin Hr. simpl in *.
  assert (dict_get (slots self) k = Some x) as Hx by (by apply dict_get_elem_of).
  rewrite (Hfree k) in Hx; [congruence| |done].
  apply list_elem_of_fmap. by exists (k, x).
Qed.

Lemma Day_add_event_returned (self : Day) event_id start_at end_at :
  NoDup (slots self).*1 ->
  (Day.add_event self event_id start_at end_at).1 = Return tt ->
  forall k, k ∈ (slots self).*1 -> in_range start_at end_at k = true ->
            free (slots self) k.
Proof.
  intros Hnd Hr k Hk Hkr. unfold free.
  destruct (dict_get_key (slots self) k Hk) as [[v|] Hv]; [|done].
  exfalso. apply dict_get_elem_of in Hv; [|done].
  destruct (first_conflict start_at end_at (slots self) k v Hv Hkr)
    as (pre & slot & v' & post & Hs & Hsr & Hpre).
  revert Hr. unfold Day.add_event. rewrite Hs in Hnd.
  pose proof (add_event_loop_conflict event_id start_at end_at []
                pre slot v' post Hnd Hsr Hpre) as Hc.
  rewrite Hs at 1 2. rewrite fmap_app, fmap_cons. cbn [app fst] in *.
  by rewrite Hc.
Qed.

(** X6. On a Day whose slots form a dict, [Day.add_event] returns exactly
    when every slot of the range [start_at <= slot < end_at] is free; it then
    books those slots to the id, in place, and leaves every other slot as it
    was. *)
Theorem Day_add_event_returns_iff (self : Day) (event_id : string)
    (start_at end_at : time) :
  NoDup (slots self).*1 ->
  ((Day.add_event self event_id start_at end_at).1 = Return tt
   <-> forall k, k ∈ (slots self).*1 -> in_range start_at end_at k = true ->
                 free (slots self) k)
  /\ ((Day.add_event self event_id start_at end_at).1 = Return tt ->
      (Day.add_event self event_id start_at end_at).2
      = set_slots self (book event_id start_at end_at <$> slots self)).
Proof.
  intros Hnd. split; [split|].
  - by apply (Day_add_event_returned self event_id).
  - intros Hf. by rewrite Day_add_event_free.
  - intros Hr. rewrite Day_add_event_free; [done..|].
    by apply (Day_add_event_returned self event_id).
Qed.

Lemma Day_add_event_returns_iff_witness :
  ((Day.add_event day_standup "b" (at_ 10 0) (at_ 11 0)).1 = Return tt
   <-> forall k, k ∈ (slots day_standup).*1 ->
                 in_range (at_ 10 0) (at_ 11 0) k = true ->
                 free (slots day_standup) k)
  /\ ((Day.add_event day_standup "b" (at_ 10 0) (at_ 11 0)).1 = Return tt ->
      (Day.add_event day_standup "b" (at_ 10 0) (at_ 11 0)).2
      = set_slots day_standup
          (book "b" (at_ 10 0) (at_ 11 0) <$> slots day_standup)).
Proof.
  apply (Day_add_event_returns_iff day_standup "b" (at_ 10 0) (at_ 11 0)).
  apply day_standup_NoDup.
Defined.

(** X7. Whatever its outcome, [Day.add_event] keeps the date and the slot
    keys of the Day in their order, and never rewrites a slot that is
    booked: what it leaves behind on failure is only new bookings to its own
    id. It returns or raises SlotNotAvailable, nothing else. *)
Theorem Day_add_event_keeps_bookings (self : Day) (event_id : string)
    (start_at end_at : time) :
  Day_date (Day.add_event self event_id start_at end_at).2 = Day_date self
  /\ (slots (Day.add_event self event_id start_at end_at).2).*1 = (slots self).*1
  /\ (forall k v, booked_to (slots self) k v ->
        booked_to (slots (Day.add_event self event_id start_at end_at).2) k v)
  /\ (forall k, free (slots (Day.add_event self event_id start_at end_at).2) k ->
        free (slots self) k)
  /\ ((Day.add_event self event_id start_at end_at).1 = Return tt
      \/ (Day.add_event self event_id start_at end_at).1 = Raise SlotNotAvailable).
Proof.
  destruct (Day_add_event_outcome self event_id start_at end_at) as [Hkeys Hr].
  split; [|split; [done|split; [|split; [|done]]]].
  - unfold Day.add_event. by destruct (Day.add_event_loop _ _ _ _ _).
  - intros k v Hk. unfold booked_to, Day.add_event in *.
    pose proof (add_event_loop_keeps event_id start_at end_at
                  (slots self).*1 (slots self) k v Hk) as Hkeep.
    by destruct (Day.add_event_loop _ _ _ _ _).
  - intros k Hk. unfold free in *.
    assert (k ∈ (slots self).*1) as Hin
      by (rewrite <- Hkeys; by eapply dict_get_Some_key).
    destruct (dict_get_key (slots self) k Hin) as [[v|] Hv]; [|done].
    unfold Day.add_event in Hk.
    pose proof (add_event_loop_keeps event_id start_at end_at
                  (slots self).*1 (slots self) k v Hv) as Hkeep.
    destruct (Day.add_event_loop _ _ _ _ _). simpl in *. congruence.
Qed.

Lemma Day_delete_event_unbooks (self : Day) (event_id : string) :
  NoDup (slots self).*1 ->
  (Day.delete_event self event_id).2
  = set_slots self (unbook event_id <$> slots self).
Proof.
  intros Hnd. unfold Day.delete_event.
  pose proof (delete_event_loop_unbooks event_id [] (slots self) false Hnd) as Hl.
  destruct (Day.delete_event_loop _ _ _ _) as [s deleted]. simpl in *.
  subst s. by destruct deleted.
Qed.

Lemma Day_delete_event_none (self : Day) (event_id : string) :
  (forall k, ~ booked_to (slots self) k event_id) ->
  Day.delete_event self event_id = (Raise EventNotFound, self).
Proof.
  intros Hno. unfold Day.delete_event.
  rewrite delete_event_loop_none by apply Hno. simpl. by destruct self.
Qed.

(** X8. On a Day whose slots form a dict, [Day.delete_event] frees, in place,
    the slots booked to the id and no other, and it returns exactly when
    there was one; when there was none it raises EventNotFound and the Day is
    as before. *)
Theorem Day_delete_event_frees (self : Day) (event_id : string) :
  NoDup (slots self).*1 ->
  (Day.delete_event self event_id).2
  = set_slots self (unbook event_id <$> slots self)
  /\ ((exists k, booked_to (slots self) k event_id) ->
      (Day.delete_event self event_id).1 = Return tt)
  /\ ((forall k, ~ booked_to (slots self) k event_id) ->
      Day.delete_event self event_id = (Raise EventNotFound, self)).
Proof.
  intros Hnd. split; [by apply Day_delete_event_unbooks|].
  split; [|apply Day_delete_event_none].
  destruct (Day_delete_event_spec self event_id)
    as (r & self' & Hdel & [[Hk ->]|[Hno ->]] & _); rewrite Hdel; [done|].
  intros [k Hk]. by destruct (Hno k).
Qed.

Lemma Day_delete_event_frees_witness :
  (Day.delete_event day_standup "a").2
  = set_slots day_standup (unbook "a" <$> slots day_standup)
  /\ ((exists k, booked_to (slots day_standup) k "a") ->
      (Day.delete_event day_standup "a").1 = Return tt)
  /\ ((forall k, ~ booked_to (slots day_standup) k "a") ->
      Day.delete_event day_standup "a" = (Raise EventNotFound, day_standup)).
Proof.
  apply (Day_delete_event_frees day_standup "a"). apply day_standup_NoDup.
Defined.

(** ** Booking and deleting through the calendar *)

Lemma book_keys event_id start_at end_at (s : list (time * option string)) :
  (book event_id start_at end_at <$> s).*1 = s.*1.
Proof.
  induction s as [|[k x] s IH]; [done|]. rewrite !fmap_cons, IH. f_equal.
  unfold book. simpl. by destruct (in_range start_at end_at k).
Qed.

Lemma book_free_slots event_id start_at end_at (s : list (time * option string)) :
  (filter (fun kv => kv.2 = None) (book event_id start_at end_at <$> s)).*1
  = filter (fun k => in_range start_at end_at k = false)
      (filter (fun kv => kv.2 = None) s).*1.
Proof.
  induction s as [|[k x] s IH]; [done|]. rewrite fmap_cons.
  destruct (in_range start_at end_at k) eqn:Hr.
  - assert (book event_id start_at end_at (k, x) = (k, Some event_id)) as ->
      by (unfold book; simpl; by rewrite Hr).
    rewrite (filter_cons_False _ (k, Some event_id)) by done.
    destruct (decide (x = None)) as [->|Hx].
    + rewrite (filter_cons_True _ (k, None)) by done.
      rewrite fmap_cons, filter_cons_False by (simpl; congruence). done.
    + by rewrite (filter_cons_False _ (k, x)).
  - assert (book event_id start_at end_at (k, x) = (k, x)) as ->
      by (unfold book; simpl; by rewrite Hr).
    destruct (decide (x = None)) as [->|Hx].
    + rewrite !(filter_cons_True _ (k, None)) by done.
      rewrite !fmap_cons, filter_cons_True by done. by rewrite IH.
    + by rewrite !(filter_cons_False _ (k, x)).
Qed.

Lemma unbook_book event_id start_at end_at (s : list (time * option string)) :
  Forall (fun kv => in_range start_at end_at kv.1 = true -> kv.2 = None) s ->
  Forall (fun kv => kv.2 <> Some event_id) s ->
  unbook event_id <$> (book event_id start_at end_at <$> s) = s.
Proof.
  induction 1 as [|[k x] s Hk _ IH]; [done|].
  intros [Hx Hs]%Forall_cons. rewrite !fmap_cons, IH by done. f_equal.
  unfold book, unbook. simpl in *.
  destruct (in_range start_at end_at k); simpl.
  - rewrite decide_True by done. by rewrite Hk.
  - by rewrite decide_False.
Qed.

(** X9. When [Calendar.add_event] returns an id, the event is indexed under
    it with the fields asked for, and [find_available_slots] for the date
    gives afterwards what it gave before without the slots of the range
    [start_at <= slot < end_at]: those are taken, every other free slot
    stays free, in the same order. *)
Theorem add_event_takes_free_slots (fuel : nat) (today : date) (fresh : string)
    (c c' : Calendar) (t d : string) (date_ : date) (s en : time) (i : string) :
  (forall dy, days c !! date_ = Some dy -> NoDup (slots dy).*1) ->
  Calendar.add_event fuel today fresh t d date_ s en c = (Return i, c') ->
  exists l,
    Calendar.find_available_slots date_ c = (Return l, c)
    /\ Calendar.find_available_slots date_ c'
       = (Return (filter (fun k => in_range s en k = false) l), c')
    /\ (forall k, k ∈ l -> in_range s en k = true ->
          exists dy', days c' !! date_ = Some dy' /\ booked_to (slots dy') k i)
    /\ events c' !! i = Some (Event.init t d date_ s en i).
Proof.
  intros Hnd Hadd.
  destruct (add_event_returns _ _ _ _ _ _ _ _ _ _ _ Hadd)
    as (dy & Hd & -> & Hr & Hdays & Hevents).
  specialize (Hnd dy Hd).
  rewrite Day_add_event_free in Hdays
    by (done || by apply (Day_add_event_returned dy fresh)).
  eexists. split; [|split; [|split]].
  - unfold Calendar.find_available_slots, bind, days_get, ret. by rewrite Hd.
  - unfold Calendar.find_available_slots, bind, days_get, ret.
    rewrite Hdays, lookup_insert_eq. simpl. by rewrite book_free_slots.
  - intros k Hk Hkr. eexists. rewrite Hdays, lookup_insert_eq. split; [done|].
    unfold booked_to. simpl.
    apply dict_get_elem_of; [by rewrite book_keys|].
    apply list_elem_of_fmap in Hk as ([k' x] & -> & [Hx Hin]%list_elem_of_filter).
    simpl in *. subst x. apply list_elem_of_fmap. exists (k', None).
    split; [|done]. unfold book. simpl. by rewrite Hkr.
  - by rewrite Hevents, lookup_insert_eq.
Qed.

Lemma add_event_takes_free_slots_witness :
  exists l,
    Calendar.find_available_slots jan10 cal_free_day = (Return l, cal_free_day)
    /\ Calendar.find_available_slots jan10 cal_standup
       = (Return (filter (fun k => in_range (at_ 9 0) (at_ 10 0) k = false) l),
          cal_standup)
    /\ (forall k, k ∈ l -> in_range (at_ 9 0) (at_ 10 0) k = true ->
          exists dy', days cal_standup !! jan10 = Some dy'
                      /\ booked_to (slots dy') k "a")
    /\ events cal_standup !! "a"
       = Some (Event.init "Standup" "daily sync" jan10 (at_ 9 0) (at_ 10 0) "a").
Proof.
  apply (add_event_takes_free_slots 0 jan10 "a" cal_free_day cal_standup
           "Standup" "daily sync" jan10 (at_ 9 0) (at_ 10 0) "a").
  - intros dy Hdy. vm_compute in Hdy. injection Hdy as <-. apply grid_NoDup.
  - vm_compute. reflexivity.
Defined.

(** X10. An event added under an id that the calendar did not use (no event
    and no slot of the Day under it) and then deleted by the id returned
    gives back the calendar as it was. The deletion returns when the range
    held a slot of the Day, and raises EventNotFound when it held none. *)
Theorem add_then_delete_event (fuel : nat) (today : date) (fresh : string)
    (c c1 : Calendar) (t d : string) (date_ : date) (s en : time) (i : string) :
  (forall dy, days c !! date_ = Some dy ->
     NoDup (slots dy).*1 /\ forall k, ~ booked_to (slots dy) k fresh) ->
  events c !! fresh = None ->
  Calendar.add_event fuel today fresh t d date_ s en c = (Return i, c1) ->
  (Calendar.delete_event i c1).2 = c
  /\ ((exists dy k, days c !! date_ = Some dy /\ k ∈ (slots dy).*1
                    /\ in_range s en k = true) ->
      (Calendar.delete_event i c1).1 = Return tt)
  /\ ((forall dy k, days c !! date_ = Some dy -> k ∈ (slots dy).*1 ->
                    in_range s en k = false) ->
      (Calendar.delete_event i c1).1 = Raise EventNotFound).
Proof.
  intros Hwf Hfresh Hadd.
  destruct (add_event_returns _ _ _ _ _ _ _ _ _ _ _ Hadd)
    as (dy & Hd & -> & Hr & Hdays & Hevents).
  destruct (Hwf dy Hd) as [Hnd Hno].
  pose proof (Day_add_event_returned dy fresh s en Hnd Hr) as Hfree.
  rewrite Day_add_event_free in Hdays by done.
  set (dy1 := set_slots dy (book fresh s en <$> slots dy)) in *.
  assert (events c1 !! fresh = Some (Event.init t d date_ s en fresh)) as Hi
    by (by rewrite Hevents, lookup_insert_eq).
  assert (days c1 !! date_ = Some dy1) as Hd1
    by (by rewrite Hdays, lookup_insert_eq).
  rewrite (delete_event_day c1 fresh _ dy1) by done. simpl.
  assert (NoDup (slots dy1).*1) as Hnd1 by (simpl; by rewrite book_keys).
  assert ((Day.delete_event dy1 fresh).2 = dy) as Hback.
  { rewrite Day_delete_event_unbooks by done. simpl.
    rewrite unbook_book; [by destruct dy| |].
    - apply Forall_forall. intros [k x] Hin Hkr. simpl in *.
      assert (dict_get (slots dy) k = Some x) as Hx by (by apply dict_get_elem_of).
      rewrite (Hfree k) in Hx; [congruence| |done].
      apply list_elem_of_fmap. by exists (k, x).
    - apply Forall_forall. intros [k x] Hin Heq. simpl in Heq. subst x.
      apply (Hno k). by apply dict_get_elem_of. }
  split; [|split].
  - rewrite Hback, Hdays, Hevents, insert_insert_eq, insert_id by done.
    rewrite delete_insert_eq, delete_id by done. by destruct c.
  - intros (dy' & k & Hd' & Hk & Hkr). rewrite Hd in Hd'. injection Hd' as <-.
    destruct (Day_delete_event_spec dy1 fresh)
      as (r & dy2 & Hdel & [[_ ->]|[Hno1 ->]] & _); rewrite Hdel; [done|].
    destruct (Hno1 k). unfold booked_to. simpl.
    apply dict_get_elem_of; [by rewrite book_keys|].
    destruct (dict_get_key (slots dy) k Hk) as [x Hx].
    rewrite (Hfree k Hk Hkr) in Hx. injection Hx as <-.
    apply list_elem_of_fmap. exists (k, None). split.
    + unfold book. simpl. by rewrite Hkr.
    + apply dict_get_elem_of; [done|]. by apply Hfree.
  - intros Hout. rewrite Day_delete_event_none; [done|].
    intros k Hk. unfold booked_to in Hk. simpl in Hk.
    apply dict_get_elem_of in Hk; [|by rewrite book_keys].
    apply list_elem_of_fmap in Hk as ([k' x] & Heq & Hin).
    assert (k' ∈ (slots dy).*1) as Hk'
      by (apply list_elem_of_fmap; by exists (k', x)).
    unfold book in Heq. simpl in Heq. rewrite (Hout dy k' Hd Hk') in Heq.
    injection Heq as -> <-. apply (Hno k'). by apply dict_get_elem_of.
Qed.

Lemma grid_not_booked k v : ~ booked_to Day_grid k v.
Proof.
  unfold booked_to. intros Hk. apply dict_get_elem_of in Hk; [|apply grid_NoDup].
  unfold Day_grid in Hk. by apply list_elem_of_fmap in Hk as (t & [=] & _).
Qed.

Lemma add_then_delete_event_witness :
  (Calendar.delete_event "a" cal_standup).2 = cal_free_day
  /\ ((exists dy k, days cal_free_day !! jan10 = Some dy /\ k ∈ (slots dy).*1
                    /\ in_range (at_ 9 0) (at_ 10 0) k = true) ->
      (Calendar.delete_event "a" cal_standup).1 = Return tt)
  /\ ((forall dy k, days cal_free_day !! jan10 = Some dy -> k ∈ (slots dy).*1 ->
                    in_range (at_ 9 0) (at_ 10 0) k = false) ->
      (Calendar.delete_event "a" cal_standup).1 = Raise EventNotFound).
Proof.
  apply (add_then_delete_event 0 jan10 "a" cal_free_day cal_standup
           "Standup" "daily sync" jan10 (at_ 9 0) (at_ 10 0) "a").
  - intros dy Hdy. vm_compute in Hdy. injection Hdy as <-.
    split; [apply grid_NoDup|]. intros k. apply grid_not_booked.
  - vm_compute. reflexivity.
  - vm_compute. reflexivity.
Defined.

(** X11. After [Calendar.delete_event], whatever its outcome, a second one
    with the same id raises EventNotFound and leaves the calendar as the
    first one left it. *)
Theorem delete_event_twice (c : Calendar) (i : string) :
  Calendar.delete_event i (Calendar.delete_event i c).2
  = (Raise EventNotFound, (Calendar.delete_event i c).2)
  /\ events (Calendar.delete_event i c).2 !! i = None.
Proof.
  assert (events (Calendar.delete_event i c).2 !! i = None) as Hi
    by (by rewrite delete_event_events, lookup_delete_eq).
  split; [|done]. by apply delete_event_absent.
Qed.

(** X12. For a date that has no Day, [Calendar.add_event] never returns an
    id: it raises DateInPast for a past date, and otherwise the construction
    of the Day does not come back (or overflows on the last day); the
    calendar is left as it was, without the Day and without the event. *)
Theorem add_event_without_day (fuel : nat) (today : date) (fresh : string)
    (c : Calendar) (t d : string) (date_ : date) (s en : time) :
  days c !! date_ = None ->
  (Calendar.add_event fuel today fresh t d date_ s en c).2 = c
  /\ (date_lt date_ today = true
      /\ (Calendar.add_event fuel today fresh t d date_ s en c).1
         = Raise DateInPast
      \/ date_lt date_ today = false
         /\ ((Calendar.add_event fuel today fresh t d date_ s en c).1 = OutOfFuel
             \/ (Calendar.add_event fuel today fresh t d date_ s en c).1
                = Raise OverflowError)).
Proof.
  intros Hd. destruct (date_lt date_ today) eqn:Hlt.
  - rewrite add_event_past by done. auto.
  - destruct (add_event_no_day fuel today fresh c t d date_ s en)
      as [-> | ->]; auto.
Qed.

Lemma add_event_without_day_witness :
  (Calendar.add_event 1000 jan10 "a" "Standup" "daily sync" jan12
     (at_ 9 0) (at_ 10 0) cal_standup).2 = cal_standup
  /\ (date_lt jan12 jan10 = true
      /\ (Calendar.add_event 1000 jan10 "a" "Standup" "daily sync" jan12
            (at_ 9 0) (at_ 10 0) cal_standup).1 = Raise DateInPast
      \/ date_lt jan12 jan10 = false
         /\ ((Calendar.add_event 1000 jan10 "a" "Standup" "daily sync" jan12
                (at_ 9 0) (at_ 10 0) cal_standup).1 = OutOfFuel
             \/ (Calendar.add_event 1000 jan10 "a" "Standup" "daily sync" jan12
                   (at_ 9 0) (at_ 10 0) cal_standup).1 = Raise OverflowError)).
Proof.
  apply (add_event_without_day 1000 jan10 "a" cal_standup "Standup"
           "daily sync" jan12 (at_ 9 0) (at_ 10 0)).
  vm_compute. reflexivity.
Defined.

(** ** The slot grid along the public operations *)

Lemma same_grid_refl ds : same_grid ds ds.
Proof. intros d. by destruct (ds !! d). Qed.

Lemma same_grid_insert ds d dy dy' :
  ds !! d = Some dy -> Day_date dy' = Day_date dy ->
  (slots dy').*1 = (slots dy).*1 ->
  same_grid ds (<[d := dy']> ds).
Proof.
  intros Hd Hdate Hkeys d0. destruct (decide (d = d0)) as [<-|Hne].
  - by rewrite lookup_insert_eq, Hd.
  - rewrite lookup_insert_ne by done. by destruct (ds !! d0).
Qed.

Lemma same_grid_trans ds1 ds2 ds3 :
  same_grid ds1 ds2 -> same_grid ds2 ds3 -> same_grid ds1 ds3.
Proof.
  intros H12 H23 d. specialize (H12 d). specialize (H23 d).
  destruct (ds1 !! d), (ds2 !! d), (ds3 !! d); try done.
  destruct H12 as [H1 H2], H23 as [H3 H4]. split; congruence.
Qed.

Lemma Day_add_event_date (self : Day) event_id start_at end_at :
  Day_date (Day.add_event self event_id start_at end_at).2 = Day_date self.
Proof. unfold Day.add_event. by destruct (Day.add_event_loop _ _ _ _ _). Qed.

Lemma Day_update_event_grid (self : Day) event_id start_at end_at :
  Day_date (Day.update_event self event_id start_at end_at).2 = Day_date self
  /\ (slots (Day.update_event self event_id start_at end_at).2).*1
     = (slots self).*1.
Proof.
  unfold Day.update_event.
  destruct (Day_delete_event_spec self event_id)
    as (r & self' & -> & _ & Hdate & Hkeys & _).
  destruct r as [[]| |]; [|done..].
  rewrite Day_add_event_date.
  destruct (Day_add_event_outcome self' event_id start_at end_at) as [-> _].
  done.
Qed.

Section CallGrid.
Context (fuel : nat) (today : date) (fresh : string).
Implicit Types (c : Calendar).

Lemma add_event_same_grid c t d date_ s en :
  same_grid (days c)
    (days (Calendar.add_event fuel today fresh t d date_ s en c).2).
Proof.
  destruct (date_lt date_ today) eqn:Hlt.
  { rewrite add_event_past by done. apply same_grid_refl. }
  destruct (days c !! date_) as [dy|] eqn:Hd.
  - rewrite (add_event_day _ _ _ _ _ _ _ _ _ dy) by done.
    pose proof (Day_add_event_date dy fresh s en) as Hdate.
    destruct (Day_add_event_outcome dy fresh s en) as [Hkeys _].
    destruct (Day.add_event dy fresh s en) as [[| |] dy']; simpl in *;
      by apply (same_grid_insert _ _ dy).
  - destruct (add_event_no_day fuel today fresh c t d date_ s en)
      as [-> | ->]; try done; apply same_grid_refl.
Qed.

Lemma delete_event_same_grid c i :
  same_grid (days c) (days (Calendar.delete_event i c).2).
Proof.
  destruct (events c !! i) as [e|] eqn:Hi.
  - destruct (days c !! date_ e) as [dy|] eqn:Hd.
    + rewrite (delete_event_day c i e dy) by done. simpl.
      destruct (Day_delete_event_spec dy i)
        as (r & dy' & -> & _ & Hdate & Hkeys & _).
      by apply (same_grid_insert _ _ dy).
    + rewrite (delete_event_no_day c i e) by done. apply same_grid_refl.
  - rewrite delete_event_absent by done. apply same_grid_refl.
Qed.

Lemma update_event_same_grid c i t d date_' s en :
  same_grid (days c)
    (days (Calendar.update_event fuel today fresh i t d date_' s en c).2).
Proof.
  destruct (events c !! i) as [e|] eqn:Hi.
  - destruct (decide (date_ e = date_')) as [<-|Hne].
    + destruct (days c !! date_ e) as [dy|] eqn:Hd.
      * rewrite (update_event_same_date _ _ _ c i e t d s en dy) by done.
        destruct (Day_update_event_grid dy i s en) as [Hdate Hkeys].
        by apply (same_grid_insert _ _ dy).
      * unfold Calendar.update_event, bind, events_get, on_event, on_day,
          set_events, set_days.
        rewrite Hi, bool_decide_false by (by intros []). simpl. rewrite Hi.
        simpl. rewrite Hd. apply same_grid_refl.
    + rewrite (update_event_new_date _ _ _ c i e) by done.
      pose proof (delete_event_same_grid c i) as Hdel.
      destruct (Calendar.delete_event i c) as [[| |] c1]; [|done..].
      pose proof (add_event_same_grid c1 t d date_' s en) as Hadd.
      destruct (Calendar.add_event fuel today fresh t d date_' s en c1)
        as [[| |] c2]; by apply (same_grid_trans _ (days c1)).
  - rewrite update_event_absent by done. apply same_grid_refl.
Qed.

End CallGrid.

(** X13. No public operation adds or removes a Day, or changes the date or
    the slot keys of one: after any call, the calendar holds Days for the
    same dates as before, each with the slots it had, in their order. *)
Theorem call_keeps_grid (fuel : nat) (today : date) (fresh : string)
    (r : request) (c : Calendar) :
  same_grid (days c) (days (call fuel today fresh r c).2).
Proof.
  destruct r as [t d date_ s en|i dt ty|date_|i t d date_ s en|i|s en|i n|i];
    unfold call; rewrite ?bind_ret_state.
  - apply add_event_same_grid.
  - unfold Calendar.add_reminder, bind, events_get, on_event, lift_outcome.
    destruct (events c !! i) as [e|] eqn:Hi; simpl; [|apply same_grid_refl].
    rewrite Hi. apply same_grid_refl.
  - unfold Calendar.find_available_slots, bind, days_get, ret.
    destruct (days c !! date_); apply same_grid_refl.
  - apply update_event_same_grid.
  - apply delete_event_same_grid.
  - apply same_grid_refl.
  - unfold Calendar.delete_reminder, bind, events_get, on_event, lift_outcome.
    destruct (events c !! i) as [e|] eqn:Hi; simpl; [|apply same_grid_refl].
    rewrite Hi. destruct (Event.delete_reminder e n). apply same_grid_refl.
  - unfold Calendar.list_reminders, bind, events_get, ret, lift_outcome.
    destruct (events c !! i); apply same_grid_refl.
Qed.

(** ** update_event and the event index *)

Lemma update_event_same_date_events fuel today fresh c X e t d s en :
  events c !! X = Some e ->
  events (Calendar.update_event fuel today fresh X t d (date_ e) s en c).2
  = <[X := set_title_description e t d]> (events c).
Proof.
  intros Hi. destruct (days c !! date_ e) as [dy|] eqn:Hd.
  - by rewrite (update_event_same_date _ _ _ c X e t d s en dy).
  - unfold Calendar.update_event, bind, events_get, on_event, on_day,
      set_events, set_days.
    rewrite Hi, bool_decide_false by (by intros []). simpl. rewrite Hi.
    simpl. by rewrite Hd.
Qed.

(** X14. A same-date [update_event] of an indexed event rewrites the title
    and the description of the indexed event and nothing else of it: the
    start and end it stores stay the old ones, whatever range is asked for,
    and the title and description are the new ones also when the rebooking
    of the slots fails. *)
Theorem update_event_same_date_index (fuel : nat) (today : date)
    (fresh : string) (c : Calendar) (X : string) (e : Event) (t d : string)
    (s en : time) :
  events c !! X = Some e ->
  events (Calendar.update_event fuel today fresh X t d (date_ e) s en c).2
  = <[X := set_title_description e t d]> (events c)
  /\ exists e',
       events (Calendar.update_event fuel today fresh X t d (date_ e) s en c).2
         !! X = Some e'
       /\ title e' = t /\ description e' = d
       /\ start_at e' = start_at e /\ end_at e' = end_at e
       /\ date_ e' = date_ e /\ id_ e' = id_ e /\ reminders e' = reminders e.
Proof.
  intros Hi. rewrite update_event_same_date_events by done.
  split; [done|]. rewrite lookup_insert_eq. eexists. by split.
Qed.

Lemma update_event_same_date_index_witness :
  events (Calendar.update_event 0 jan10 "b" "a" "Retro" "weekly" (date_ standup)
            (at_ 11 0) (at_ 12 0) cal_standup).2
  = <["a" := set_title_description standup "Retro" "weekly"]> (events cal_standup)
  /\ exists e',
       events (Calendar.update_event 0 jan10 "b" "a" "Retro" "weekly"
                 (date_ standup) (at_ 11 0) (at_ 12 0) cal_standup).2
         !! "a" = Some e'
       /\ title e' = "Retro" /\ description e' = "weekly"
       /\ start_at e' = start_at standup /\ end_at e' = end_at standup
       /\ date_ e' = date_ standup /\ id_ e' = id_ standup
       /\ reminders e' = reminders standup.
Proof.
  apply (update_event_same_date_index 0 jan10 "b" cal_standup "a" standup
           "Retro" "weekly" (at_ 11 0) (at_ 12 0)).
  vm_compute. reflexivity.
Defined.

(** X15. An [update_event] that moves an event to another date, not in the
    past, whose Day exists and has the range free returns and replaces the
    event: the old id leaves the index and the slots of its Day, and a new
    event is indexed under the fresh id, with the fields asked for and no
    reminder (those of the old event are not carried over). *)
Theorem update_event_new_date_reindexes (fuel : nat) (today : date)
    (fresh : string) (c : Calendar) (X : string) (e : Event) (t d : string)
    (date_' : date) (s en : time) (dy dy2 : Day) (k : time) :
  events c !! X = Some e ->
  date_ e <> date_' ->
  date_lt date_' today = false ->
  days c !! date_ e = Some dy ->
  booked_to (slots dy) k X ->
  days c !! date_' = Some dy2 ->
  (Day.add_event dy2 fresh s en).1 = Return tt ->
  Calendar.update_event fuel today fresh X t d date_' s en c
  = (Return tt,
     {| days := <[date_' := (Day.add_event dy2 fresh s en).2]>
                  (<[date_ e := (Day.delete_event dy X).2]> (days c));
        events := <[fresh := Event.init t d date_' s en fresh]>
                    (delete X (events c)) |})
  /\ forall k', ~ booked_to (slots (Day.delete_event dy X).2) k' X.
Proof.
  intros Hi Hne Hlt Hd Hk Hd2 Hr.
  rewrite (update_event_new_date _ _ _ c X e) by done.
  rewrite (delete_event_day c X e dy) by done.
  destruct (Day_delete_event_spec dy X)
    as (r & dy' & Hdel & [[_ ->]|[Hno _]] & _ & _ & Hget);
    [|by destruct (Hno k)].
  rewrite Hdel. simpl.
  rewrite (add_event_day _ _ _ _ _ _ _ _ _ dy2)
    by (done || simpl; by rewrite lookup_insert_ne).
  destruct (Day.add_event dy2 fresh s en) as [[[]| |] dy2']; try done.
  split; [done|]. intros k'. unfold booked_to. rewrite Hget. by case_decide.
Qed.

Lemma update_event_new_date_reindexes_witness :
  Calendar.update_event 0 jan10 "b" "a" "Standup" "daily sync" jan12
    (at_ 9 0) (at_ 10 0) cal_two_days
  = (Return tt,
     {| days := <[jan12 := (Day.add_event {| Day_date := jan12; slots := Day_grid |}
                              "b" (at_ 9 0) (at_ 10 0)).2]>
                  (<[date_ standup := (Day.delete_event day_standup "a").2]>
                     (days cal_two_days));
        events := <["b" := Event.init "Standup" "daily sync" jan12
                             (at_ 9 0) (at_ 10 0) "b"]>
                    (delete "a" (events cal_two_days)) |})
  /\ forall k', ~ booked_to (slots (Day.delete_event day_standup "a").2) k' "a".
Proof.
  apply (update_event_new_date_reindexes 0 jan10 "b" cal_two_days "a" standup
           "Standup" "daily sync" jan12 (at_ 9 0) (at_ 10 0) day_standup
           {| Day_date := jan12; slots := Day_grid |} (at_ 9 0)).
  - vm_compute. reflexivity.
  - vm_compute. discriminate.
  - vm_compute. reflexivity.
  - vm_compute. reflexivity.
  - vm_compute. reflexivity.
  - vm_compute. reflexivity.
  - vm_compute. reflexivity.
Defined.

(** ** Day.update_event and the function update_event *)

(** Outside the range, the loop of [Day.add_event] changes nothing. *)
Lemma add_event_loop_outside event_id start_at end_at keys s k :
  in_range start_at end_at k = false ->
  dict_get (Day.add_event_loop event_id start_at end_at keys s).2 k
  = dict_get s k.
Proof.
  intros Hk. revert s. induction keys as [|slot keys IH]; intros s;
    cbn [Day.add_event_loop]; [done|].
  destruct (in_range start_at end_at slot) eqn:Hr; [|by apply IH].
  destruct (dict_get s slot) as [[w|]|]; [done| |done].
  rewrite IH. apply dict_get_set_ne. intros ->. congruence.
Qed.

(** A slot booked after the loop was booked before, or is one of the range
    that was free. *)
Lemma add_event_loop_booked event_id start_at end_at keys s k v :
  dict_get (Day.add_event_loop event_id start_at end_at keys s).2 k
  = Some (Some v) ->
  dict_get s k = Some (Some v)
  \/ v = event_id /\ in_range start_at end_at k = true /\ dict_get s k = Some None.
Proof.
  revert s. induction keys as [|slot keys IH]; intros s;
    cbn [Day.add_event_loop]; [auto|].
  destruct (in_range start_at end_at slot) eqn:Hr; [|by apply IH].
  destruct (dict_get s slot) as [[w|]|] eqn:Hslot; [auto| |auto].
  intros [Hk|(-> & Hkr & Hk)]%IH; revert Hk; rewrite dict_get_set;
    destruct (decide (slot = k)) as [->|Hne]; try done; auto.
  intros [= ->]. auto.
Qed.

(** X16. [Day.update_event] for an id that holds a slot moves the booking,
    also when it fails: it returns or raises SlotNotAvailable, and
    afterwards the id holds only slots of the new range that were free or
    its own, while every slot it held outside the new range is free. A
    failed update does not give the old booking back. *)
Theorem Day_update_event_moves (self : Day) (X : string) (s en : time)
    (k0 : time) :
  booked_to (slots self) k0 X ->
  ((Day.update_event self X s en).1 = Return tt
   \/ (Day.update_event self X s en).1 = Raise SlotNotAvailable)
  /\ (forall k, booked_to (slots (Day.update_event self X s en).2) k X ->
        in_range s en k = true
        /\ (free (slots self) k \/ booked_to (slots self) k X))
  /\ (forall k, booked_to (slots self) k X -> in_range s en k = false ->
        free (slots (Day.update_event self X s en).2) k).
Proof.
  intros Hk0. unfold Day.update_event.
  destruct (Day_delete_event_spec self X)
    as (r & dy1 & -> & [[_ ->]|[Hno _]] & _ & _ & Hget); [|by destruct (Hno k0)].
  destruct (Day_add_event_outcome dy1 X s en) as [_ Hr]. split; [done|].
  unfold booked_to, free, Day.add_event.
  pose proof (add_event_loop_booked X s en (slots dy1).*1 (slots dy1)) as Hb.
  pose proof (add_event_loop_outside X s en (slots dy1).*1 (slots dy1)) as Ho.
  destruct (Day.add_event_loop X s en (slots dy1).*1 (slots dy1)) as [r' s'].
  simpl in *. split.
  - intros k Hk. destruct (Hb k X Hk) as [Hk1|(_ & Hkr & Hk1)];
      rewrite Hget in Hk1; case_decide; try done; auto.
  - intros k Hk Hkr. rewrite Ho, Hget by done. by rewrite decide_True.
Qed.

Lemma day_two_events_booked :
  booked_to (slots day_two_events) (at_ 9 0) "a"
  /\ booked_to (slots day_two_events) (at_ 10 0) "b".
Proof. split; by vm_compute. Qed.

Lemma Day_update_event_moves_witness :
  ((Day.update_event day_two_events "a" (at_ 9 30) (at_ 10 30)).1 = Return tt
   \/ (Day.update_event day_two_events "a" (at_ 9 30) (at_ 10 30)).1
      = Raise SlotNotAvailable)
  /\ (forall k,
        booked_to (slots (Day.update_event day_two_events "a"
                            (at_ 9 30) (at_ 10 30)).2) k "a" ->
        in_range (at_ 9 30) (at_ 10 30) k = true
        /\ (free (slots day_two_events) k \/ booked_to (slots day_two_events) k "a"))
  /\ (forall k, booked_to (slots day_two_events) k "a" ->
        in_range (at_ 9 30) (at_ 10 30) k = false ->
        free (slots (Day.update_event day_two_events "a"
                       (at_ 9 30) (at_ 10 30)).2) k).
Proof.
  apply (Day_update_event_moves day_two_events "a" (at_ 9 30) (at_ 10 30) (at_ 9 0)).
  vm_compute. reflexivity.
Defined.

(** The sample of X16 evaluated: the update fails on 10:00, held by ["b"];
    ["a"] is left with 09:30 and 09:45, and 09:00 is free. *)
Lemma Day_update_event_moves_sample :
  (Day.update_event day_two_events "a" (at_ 9 30) (at_ 10 30)).1
  = Raise SlotNotAvailable
  /\ free (slots (Day.update_event day_two_events "a" (at_ 9 30) (at_ 10 30)).2)
       (at_ 9 0)
  /\ booked_to (slots (Day.update_event day_two_events "a" (at_ 9 30) (at_ 10 30)).2)
       (at_ 9 30) "a"
  /\ booked_to (slots (Day.update_event day_two_events "a" (at_ 9 30) (at_ 10 30)).2)
       (at_ 10 0) "b".
Proof. repeat split; by vm_compute. Qed.

(** The first loop of the function [update_event] is the loop of
    [Day.delete_event], without the flag. *)
Lemma update_event_clear_eq event_id keys s deleted :
  Toplevel.update_event_clear event_id keys s
  = (Day.delete_event_loop event_id keys s deleted).1.
Proof.
  revert s deleted. induction keys as [|slot keys IH]; intros s deleted;
    cbn [Toplevel.update_event_clear Day.delete_event_loop]; [done|].
  case_decide; apply IH.
Qed.

(** Its second loop is the loop of [Day.add_event] as long as no slot holds
    the empty string. *)
Lemma update_event_book_eq event_id start_at end_at keys s :
  NoDup keys ->
  (forall k, k ∈ keys -> dict_get s k <> Some (Some EmptyString)) ->
  Toplevel.update_event_book event_id start_at end_at keys s
  = Day.add_event_loop event_id start_at end_at keys s.
Proof.
  revert s. induction keys as [|slot keys IH]; intros s Hnd Hne;
    cbn [Toplevel.update_event_book Day.add_event_loop]; [done|].
  apply NoDup_cons in Hnd as [Hslot Hnd].
  assert (forall k, k ∈ keys -> dict_get s k <> Some (Some EmptyString)) as Hne'
    by (intros k Hk; apply Hne; by apply list_elem_of_further).
  destruct (in_range start_at end_at slot); [|by apply IH].
  destruct (dict_get s slot) as [[w|]|] eqn:Hs; [| |done].
  - simpl. rewrite bool_decide_false; [done|]. intros ->.
    by apply (Hne slot); [apply list_elem_of_here|].
  - simpl. apply IH; [done|]. intros k Hk.
    rewrite dict_get_set_ne by (by intros ->). by apply Hne'.
Qed.

(** X17. On a Day whose slots form a dict and hold no empty string, the
    function [update_event] that follows the classes does what
    [Day.update_event] does when the id holds a slot; when the id holds
    none it books the range as [Day.add_event] does, where
    [Day.update_event] raises EventNotFound and changes nothing. *)
Theorem toplevel_update_event_agrees (self : Day) (event_id : string)
    (start_at end_at : time) :
  NoDup (slots self).*1 ->
  (forall k, dict_get (slots self) k <> Some (Some EmptyString)) ->
  ((exists k, booked_to (slots self) k event_id) ->
   Toplevel.update_event self event_id start_at end_at
   = Day.update_event self event_id start_at end_at)
  /\ ((forall k, ~ booked_to (slots self) k event_id) ->
      Toplevel.update_event self event_id start_at end_at
      = Day.add_event self event_id start_at end_at
      /\ Day.update_event self event_id start_at end_at
         = (Raise EventNotFound, self)).
Proof.
  intros Hnd Hne. split.
  - intros Hk. unfold Toplevel.update_event, Day.update_event.
    rewrite (update_event_clear_eq _ _ _ false).
    destruct (Day_delete_event_spec self event_id)
      as (r & dy1 & Hdel & [[_ ->]|[Hno _]] & _ & Hkeys & Hget);
      [|destruct Hk as [k Hk]; by destruct (Hno k)].
    rewrite Hdel. unfold Day.delete_event in Hdel.
    destruct (Day.delete_event_loop event_id (slots self).*1 (slots self) false)
      as [s1 deleted]. simpl.
    assert (dy1 = set_slots self s1) as ->
      by (destruct deleted; simpl in Hdel; [by injection Hdel|done]).
    simpl in *. unfold Day.add_event. simpl.
    rewrite update_event_book_eq.
    + by destruct (Day.add_event_loop _ _ _ _ _).
    + by rewrite Hkeys.
    + intros k _. rewrite Hget. case_decide; [done|apply Hne].
  - intros Hno. split;
      [|unfold Day.update_event; by rewrite Day_delete_event_none].
    unfold Toplevel.update_event, Day.add_event.
    rewrite (update_event_clear_eq _ _ _ false), delete_event_loop_none
      by apply Hno. simpl.
    rewrite update_event_book_eq; [done..|]. intros k _. apply Hne.
Qed.

Lemma day_standup_no_empty_id k :
  dict_get (slots day_standup) k <> Some (Some EmptyString).
Proof.
  intros Hk. apply dict_get_elem_of in Hk; [|apply day_standup_NoDup].
  assert (Forall (fun kv : time * option string => kv.2 <> Some EmptyString)
            (slots day_standup)) as Hall
    by (apply (bool_decide_unpack _); by vm_compute).
  by apply (proj1 (Forall_forall _ _) Hall) in Hk.
Qed.

Lemma toplevel_update_event_agrees_witness :
  ((exists k, booked_to (slots day_standup) k "a") ->
   Toplevel.update_event day_standup "a" (at_ 9 0) (at_ 9 30)
   = Day.update_event day_standup "a" (at_ 9 0) (at_ 9 30))
  /\ ((forall k, ~ booked_to (slots day_standup) k "a") ->
      Toplevel.update_event day_standup "a" (at_ 9 0) (at_ 9 30)
      = Day.add_event day_standup "a" (at_ 9 0) (at_ 9 30)
      /\ Day.update_event day_standup "a" (at_ 9 0) (at_ 9 30)
         = (Raise EventNotFound, day_standup)).
Proof.
  apply (toplevel_update_event_agrees day_standup "a" (at_ 9 0) (at_ 9 30)).
  - apply day_standup_NoDup.
  - apply day_standup_no_empty_id.
Defined.

(** ** The loop of _init_slots, for ever *)

(** X18. On any day but the last one of the calendar, the dict of
    [_init_slots] never grows past the grid: after 96 passes, and after any
    further multiple of 96, the loop is at 00:00 again with exactly the 96
    free slots 00:00, 00:15, ..., 23:45 in the dict. *)
Theorem init_slots_grid_forever (today : date) (n fuel : nat) :
  1 <= toordinal today < MAXORDINAL ->
  Day._init_slots (96 * S n + fuel) today
  = Day.init_slots_loop fuel today (Time 0 0 0 0) Day_grid.
Proof.
  intros Htoday. revert fuel. induction n as [|n IH]; intros fuel.
  - rewrite Nat.mul_1_r. by apply init_slots_builds_grid.
  - replace (96 * S (S n) + fuel)%nat with (96 * S n + (96 + fuel))%nat by lia.
    rewrite IH, init_slots_loop_passes, grid_after_192_passes; [done..|].
    by vm_compute.
Qed.

Lemma init_slots_grid_forever_witness :
  Day._init_slots (96 * 2 + 5) jan10
  = Day.init_slots_loop 5 jan10 (Time 0 0 0 0) Day_grid.
Proof.
  apply (init_slots_grid_forever jan10 1 5).
  assert (toordinal jan10 = 738895) as -> by reflexivity.
  unfold MAXORDINAL. lia.
Defined.

(** ** A calendar that starts empty *)

(** X19. From [Calendar()], every public call that comes back leaves the
    calendar empty: without a Day no event can be added, and nothing else
    adds one. *)
Theorem calendar_stays_empty (P : request -> Prop) (c : Calendar) :
  reachable_from P Calendar.init c ->
  c = Calendar.init /\ days c = ∅ /\ events c = ∅.
Proof. intros ->%reachable_from_init. done. Qed.

Lemma calendar_stays_empty_witness :
  (Calendar.delete_event "a" Calendar.init).2 = Calendar.init
  /\ days (Calendar.delete_event "a" Calendar.init).2 = ∅
  /\ events (Calendar.delete_event "a" Calendar.init).2 = ∅.
Proof.
  apply (calendar_stays_empty (fun _ => True)).
  apply (reachable_call _ _ Calendar.init 0%nat jan10 "a" (DeleteEvent "a")
           (Raise EventNotFound)).
  - apply reachable_start.
  - exact I.
  - vm_compute. reflexivity.
  - discriminate.
Defined.

(** ** The keys of the event index *)

Lemma call_index_by_id fuel today fresh r c :
  index_by_id c -> index_by_id (call fuel today fresh r c).2.
Proof.
  intros Hc.
  destruct r as [t d da s en|i dt ty|da|i t d da s en|i|s en|i n|i];
    unfold call; rewrite ?bind_ret_state.
  - destruct (add_event_events fuel today fresh c t d da s en) as [Heq|Heq];
      intros j e'; rewrite Heq; [apply Hc|].
    intros [[<- <-]|[_ Hj]]%lookup_insert_Some; [done|by apply Hc].
  - unfold Calendar.add_reminder, bind, events_get, on_event, lift_outcome.
    destruct (events c !! i) as [e|] eqn:Hi; simpl; [|done]. rewrite Hi.
    intros j e' Hj. simpl in Hj.
    apply lookup_insert_Some in Hj as [[<- <-]|[_ Hj]]; [|by apply Hc].
    by apply (Hc i e).
  - unfold Calendar.find_available_slots, bind, days_get, ret.
    by destruct (days c !! da).
  - destruct (events c !! i) as [e|] eqn:Hi;
      [|by rewrite update_event_absent].
    destruct (decide (date_ e = da)) as [<-|Hne].
    + intros j e'. rewrite update_event_same_date_events by done.
      intros [[<- <-]|[_ Hj]]%lookup_insert_Some; [|by apply Hc].
      by apply (Hc i e).
    + rewrite (update_event_new_date _ _ _ c i e) by done.
      pose proof (delete_event_events c i) as Hdel.
      assert (index_by_id (Calendar.delete_event i c).2) as Hc1.
      { intros j e'. rewrite Hdel. intros [_ Hj]%lookup_delete_Some.
        by apply Hc. }
      destruct (Calendar.delete_event i c) as [[| |] c1]; [|done..].
      simpl in Hc1.
      destruct (add_event_events fuel today fresh c1 t d da s en)
        as [Hadd|Hadd];
        destruct (Calendar.add_event fuel today fresh t d da s en c1)
          as [[| |] c2]; simpl in *; intros j e'; rewrite Hadd; try apply Hc1;
        (intros [[<- <-]|[_ Hj]]%lookup_insert_Some; [done|by apply Hc1]).
  - intros j e'. rewrite delete_event_events.
    intros [_ Hj]%lookup_delete_Some. by apply Hc.
  - done.
  - unfold Calendar.delete_reminder, bind, events_get, on_event, lift_outcome.
    destruct (events c !! i) as [e|] eqn:Hi; simpl; [|done]. rewrite Hi.
    unfold Event.delete_reminder. destruct (_ && _); simpl;
      intros j e' Hj; simpl in Hj;
      apply lookup_insert_Some in Hj as [[<- <-]|[_ Hj]];
      try (by apply Hc); by apply (Hc i e).
  - unfold Calendar.list_reminders, bind, events_get, ret, lift_outcome.
    by destruct (events c !! i).
Qed.

(** X20. The event index stays keyed by the ids of its events: when every
    event of a calendar is indexed under its own id, so is every event of
    any calendar the public operations reach from it. *)
Theorem index_by_id_preserved (c0 c : Calendar) :
  index_by_id c0 ->
  reachable_from (fun _ => True) c0 c ->
  index_by_id c.
Proof.
  intros H0. induction 1 as [|c fuel today fresh r o c' _ IH _ Hcall _]; [done|].
  pose proof (call_index_by_id fuel today fresh r c IH) as Hc'.
  by rewrite Hcall in Hc'.
Qed.

Lemma index_by_id_preserved_witness : index_by_id cal_standup.
Proof.
  apply (index_by_id_preserved cal_free_day cal_standup).
  - intros i e Hi. vm_compute in Hi. discriminate.
  - apply (reachable_call _ _ cal_free_day 0%nat jan10 "a"
             (AddEvent "Standup" "daily sync" jan10 (at_ 9 0) (at_ 10 0))
             (Return tt)).
    + apply reachable_start.
    + exact I.
    + vm_compute. reflexivity.
    + discriminate.
Defined.

(** ** The calendars reached from Calendar() *)





(** ** delete_event and add_event on calendars that hold Days *)

(** X21. On any calendar, [delete_event(id)] returns or raises
    EventNotFound, and the id is out of the event index afterwards in both
    cases. It raises exactly when the id was not indexed, or it was, the
    event's date has a Day and no slot of that Day is booked to the id. *)
Theorem delete_event_outcome (c : Calendar) (i : string) :
  ((Calendar.delete_event i c).1 = Return tt
   \/ (Calendar.delete_event i c).1 = Raise EventNotFound)
  /\ events (Calendar.delete_event i c).2 = delete i (events c)
  /\ events (Calendar.delete_event i c).2 !! i = None
  /\ ((Calendar.delete_event i c).1 = Raise EventNotFound
      <-> events c !! i = None
          \/ exists e dy, events c !! i = Some e /\ days c !! date_ e = Some dy
                          /\ forall k, ~ booked_to (slots dy) k i).
Proof.
  destruct (delete_event_not_found_iff c i) as [Hr Hiff].
  split; [done|]. split; [apply delete_event_events|]. split; [|done].
  by rewrite delete_event_events, lookup_delete_eq.
Qed.

Lemma in_range_empty start_at end_at k :
  time_le end_at start_at = true -> in_range start_at end_at k = false.
Proof.
  intros Hle. unfold in_range.
  destruct (time_le start_at k) eqn:Hs; [|done]. simpl.
  apply time_le_not_lt. by apply (time_le_trans _ start_at).
Qed.

Lemma add_event_loop_empty event_id start_at end_at keys s :
  (forall k, in_range start_at end_at k = false) ->
  Day.add_event_loop event_id start_at end_at keys s = (Return tt, s).
Proof.
  intros Hr. induction keys as [|slot keys IH]; cbn [Day.add_event_loop]; [done|].
  by rewrite Hr.
Qed.

(** X23. [Calendar.add_event] does not compare the start with the end: on a
    date that is not in the past and has a Day, a request with end <= start
    returns the id, indexes the event with those times and changes no
    slot. *)
Theorem add_event_unordered_range (fuel : nat) (today : date) (fresh : string)
    (c : Calendar) (t d : string) (date_ : date) (s en : time) (dy : Day) :
  date_lt date_ today = false ->
  days c !! date_ = Some dy ->
  time_le en s = true ->
  Calendar.add_event fuel today fresh t d date_ s en c
  = (Return fresh,
     set_events c (<[fresh := Event.init t d date_ s en fresh]> (events c)))
  /\ time_lt s en = false.
Proof.
  intros Hlt Hd Hle. split; [|by apply time_le_not_lt].
  rewrite (add_event_day _ _ _ _ _ _ _ _ _ dy) by done.
  unfold Day.add_event.
  rewrite add_event_loop_empty by (intros k; by apply in_range_empty).
  assert (set_slots dy (slots dy) = dy) as -> by (by destruct dy).
  by rewrite insert_id.
Qed.

Lemma add_event_unordered_range_witness :
  Calendar.add_event 0 jan10 "y" "Backwards" "" jan10 (at_ 10 0) (at_ 9 0)
    cal_free_day
  = (Return "y",
     set_events cal_free_day
       (<["y" := Event.init "Backwards" "" jan10 (at_ 10 0) (at_ 9 0) "y"]>
          (events cal_free_day)))
  /\ time_lt (at_ 10 0) (at_ 9 0) = false.
Proof.
  apply (add_event_unordered_range 0 jan10 "y" cal_free_day "Backwards" ""
           jan10 (at_ 10 0) (at_ 9 0) {| Day_date := jan10; slots := Day_grid |}).
  - vm_compute. reflexivity.
  - vm_compute. reflexivity.
  - vm_compute. reflexivity.
Defined.
